(** * pymel.util.utilitytypes: a shallow embedding and its properties

    The module is a flat collection of helpers built on Python's object
    model: two singleton metaclasses, a read-only-attribute metaclass, a
    proxy-class generator, a module interceptor, a lazily loaded module,
    a lazy docstring and two containers with defaults.

    Each helper is embedded in a Module of its own, over a common core:
    Python values with object identity, exceptions, and a state-and-exception
    monad in which the store survives a raised exception, as it does in
    Python. Dictionaries are finite maps, lists are lists, classes are records
    holding their dictionary and their method resolution order. *)

From Stdlib Require Import ZArith Ascii String.
From stdpp Require Import base option list gmap strings.

Local Open Scope string_scope.
Local Open Scope list_scope.

(** ** Core: values, exceptions, the monad *)

Module Py.

(** Identity of a heap object, of a class and of a callable. *)
Definition loc := positive.
Definition classid := positive.
Definition funid := positive.

(** The values the helpers pass around. Two [VRef]s are the same object
    (Python's [is]) exactly when their locations are equal. *)
Inductive value : Type :=
| VNone
| VInt (n : Z)
| VStr (s : string)
| VRef (l : loc)
| VClass (c : classid)
| VFun (f : funid).

#[global] Instance value_eq_dec : EqDecision value.
Proof. solve_decision. Defined.

Definition value_enc (v : value) : unit + Z + string + loc + classid + funid :=
  match v with
  | VNone => inl (inl (inl (inl (inl tt))))
  | VInt n => inl (inl (inl (inl (inr n))))
  | VStr s => inl (inl (inl (inr s)))
  | VRef l => inl (inl (inr l))
  | VClass c => inl (inr c)
  | VFun f => inr f
  end.

Definition value_dec (x : unit + Z + string + loc + classid + funid) : value :=
  match x with
  | inl (inl (inl (inl (inl _)))) => VNone
  | inl (inl (inl (inl (inr n)))) => VInt n
  | inl (inl (inl (inr s))) => VStr s
  | inl (inl (inr l)) => VRef l
  | inl (inr c) => VClass c
  | inr f => VFun f
  end.

#[global] Instance value_countable : Countable value.
Proof. apply (inj_countable' value_enc value_dec). by intros []. Defined.

(** Positional and keyword arguments of a call. *)
Definition args := list value.
Definition kwargs := list (string * value).

(** The exceptions the module raises or lets through. [UserError] stands
    for any other exception class raised by caller-supplied code. *)
Inductive exn : Type :=
| AssertionError
| AttributeError (msg : string)
| IndexError
| KeyError (key : value)
| TypeError (msg : string)
| ValueError (msg : string)
| LazyDocStringError (msg : string)
| UserError (tag : string).

#[global] Instance exn_eq_dec : EqDecision exn.
Proof. solve_decision. Defined.

Inductive outcome (A : Type) : Type :=
| Ok (a : A)
| Raise (e : exn).
Arguments Ok {A} a.
Arguments Raise {A} e.

(** A computation over a store [S]: it returns or raises, and leaves a
    store behind in both cases. *)
Definition M (S A : Type) : Type := S → outcome A * S.

Definition ret {S A} (a : A) : M S A := λ st, (Ok a, st).
Definition raise {S A} (e : exn) : M S A := λ st, (Raise e, st).
Definition bind {S A B} (c : M S A) (k : A → M S B) : M S B :=
  λ st, match c st with
        | (Ok a, st') => k a st'
        | (Raise e, st') => (Raise e, st')
        end.
Definition get {S} : M S S := λ st, (Ok st, st).
Definition put {S} (st : S) : M S unit := λ _, (Ok tt, st).
Definition modify {S} (f : S → S) : M S unit := λ st, (Ok tt, f st).

(** [try: c  except <sel>: h]: the handler runs, in the store the failed
    body left, when [sel] accepts the exception; [sel] hands the handler
    what the [except] clause binds. *)
Definition try_except {S A X} (c : M S A) (sel : exn → option X)
    (h : X → M S A) : M S A :=
  λ st, match c st with
        | (Ok a, st') => (Ok a, st')
        | (Raise e, st') =>
            match sel e with
            | Some x => h x st'
            | None => (Raise e, st')
            end
        end.

(** [assert b] *)
Definition assert {S} (b : bool) : M S unit :=
  if b then ret tt else raise AssertionError.

(** Selectors for [except] clauses. *)
Definition is_IndexError (e : exn) : option unit :=
  match e with IndexError => Some tt | _ => None end.
Definition is_KeyError (e : exn) : option unit :=
  match e with KeyError _ => Some tt | _ => None end.
Definition is_AttributeError (e : exn) : option string :=
  match e with AttributeError msg => Some msg | _ => None end.
Definition any_exception (e : exn) : option unit := Some tt.

(** [hasattr(v, '__call__')]: functions and classes are callable. *)
Definition callable (v : value) : bool :=
  match v with VFun _ | VClass _ => true | _ => false end.

(** A call made to a caller-supplied callable, as recorded in a store's
    call log. *)
Record call_event :=
  Called { callee : value; call_args : args; call_kwargs : kwargs }.

#[global] Instance call_event_eq_dec : EqDecision call_event.
Proof. solve_decision. Defined.

(** Stores with a call log: [logged call f a k] makes the call and
    appends it to the log, whether it returns or raises; [unlogged c]
    runs a computation that calls nothing. *)
Definition logged {S} (call : value → args → kwargs → M S value)
    (f : value) (a : args) (k : kwargs) : M (S * list call_event) value :=
  λ '(st, log),
    let '(r, st') := call f a k st in (r, (st', log ++ [Called f a k])).

Definition unlogged {S A} (c : M S A) : M (S * list call_event) A :=
  λ '(st, log), let '(r, st') := c st in (r, (st', log)).

(** [type.__setattr__(cls, name, value)] first looks [name] up on the
    metaclass: a data descriptor found there takes the assignment, and the
    class dictionary is not consulted. These are the data descriptors of
    [type] and of [object] (CPython 2.6 and 2.7). The members are read-only
    for every value. *)
Definition type_readonly_members : list string :=
  ["__mro__"; "__base__"; "__basicsize__"; "__itemsize__"; "__flags__";
   "__weakrefoffset__"; "__dictoffset__"].

(** What [type.__setattr__] raises, on a class whose metaclass is [type]
    itself, for a value that is neither a string, nor a tuple of classes,
    nor a class (a function, a descriptor, an instance): [__dict__] and
    [__doc__] have no setter, [__name__] wants a string, [__bases__] a
    tuple of classes and [__class__] a class. Every other name, [__module__]
    and [__abstractmethods__] included, ends in the class dictionary. *)
Definition type_refuses (name : string) : option exn :=
  if bool_decide (name ∈ type_readonly_members)
  then Some (TypeError "readonly attribute")
  else if bool_decide (name = "__dict__")
  then Some (AttributeError
               "attribute '__dict__' of 'type' objects is not writable")
  else if bool_decide (name = "__doc__")
  then Some (AttributeError
               "attribute '__doc__' of 'type' objects is not writable")
  else if bool_decide (name = "__name__")
  then Some (TypeError "can only assign string to __name__")
  else if bool_decide (name = "__bases__")
  then Some (TypeError "can only assign tuple to __bases__")
  else if bool_decide (name = "__class__")
  then Some (TypeError "__class__ must be set to new-style class")
  else None.

(** A string with a null character cannot be the [__name__] of a
    class. *)
Definition has_null (s : string) : bool :=
  existsb (λ c, Ascii.eqb c Ascii.zero) (list_ascii_of_string s).

(** The items of a string, when it is iterated. *)
Fixpoint chars (s : string) : list string :=
  match s with
  | EmptyString => []
  | String a s' => String a EmptyString :: chars s'
  end.

End Py.

Export Py.

(** The monad is used through stdpp's [mret] and bind notations:
    [x ← c; k] and [c;; k]. *)
#[global] Instance M_ret {S} : MRet (M S) := λ A, @Py.ret S A.
#[global] Instance M_bind {S} : MBind (M S) := λ A B k c, Py.bind c k.

(** * Part I: the embedding *)

(** ** [defaultdict], the fallback class (source lines 197-231)

    The fallback is defined when [collections.defaultdict] cannot be
    imported, that is on interpreters whose [dict.__getitem__] is a plain
    lookup. The dictionary's contents are a finite map; [default_factory]
    is an attribute of the object. What calling a caller-supplied value does
    is given by [call], which may touch the whole store, the dictionary
    included. *)

Module defaultdict.
Section defs.
Context {W : Type}.

Record store : Type := Store {
  items : gmap value value;
  default_factory : value;
  world : W
}.

Definition set_items (f : gmap value value → gmap value value)
    (st : store) : store :=
  Store (f (items st)) (default_factory st) (world st).

Variable call : value → args → kwargs → M store value.

(** [__init__(self, default_factory=None, *a, **kw)]; [a] is the
    mapping [dict.__init__] receives. *)
Definition __init__ (factory : value) (a : gmap value value) (w : W)
    : outcome store :=
  if negb (bool_decide (factory = VNone)) && negb (callable factory)
  then Raise (TypeError "first argument must be callable")
  else Ok (Store a factory w).

(** [dict.__getitem__(self, key)] *)
Definition dict___getitem__ (key : value) : M store value :=
  st ← get;
  match items st !! key with
  | Some v => mret v
  | None => raise (KeyError key)
  end.

(** [self[key] = value], which is [dict.__setitem__]: the class does
    not override it. *)
Definition dict___setitem__ (key v : value) : M store unit :=
  modify (set_items <[key := v]>).

Definition __missing__ (key : value) : M store value :=
  st ← get;
  if bool_decide (default_factory st = VNone)
  then raise (KeyError key)
  else
    v ← call (default_factory st) [] [];
    dict___setitem__ key v;;
    mret v.

Definition __getitem__ (key : value) : M store value :=
  try_except (dict___getitem__ key) is_KeyError (λ _, __missing__ key).
End defs.
Arguments store : clear implicits.
End defaultdict.

(** ** [defaultlist] (source lines 233-254) *)

Module defaultlist.
Section defs.
Context {W : Type}.

Record store : Type := Store {
  items : list value;
  default_factory : value;
  world : W
}.

Definition set_items (f : list value → list value) (st : store) : store :=
  Store (f (items st)) (default_factory st) (world st).

Variable call : value → args → kwargs → M store value.

Definition __init__ (factory : value) (a : list value) (w : W)
    : outcome store :=
  if negb (bool_decide (factory = VNone)) && negb (callable factory)
  then Raise (TypeError "first argument must be callable")
  else Ok (Store a factory w).

(** [len(self)] *)
Definition len : M store Z := st ← get; mret (Z.of_nat (length (items st))).

(** The position an integer index denotes in a list of length [n]: a
    negative index counts from the end. *)
Definition position (n index : Z) : option nat :=
  let i := if (index <? 0)%Z then (index + n)%Z else index in
  if (0 <=? i)%Z && (i <? n)%Z then Some (Z.to_nat i) else None.

(** [list.__setitem__(self, index, item)] for an integer index. *)
Definition list___setitem__ (index : Z) (item : value) : M store unit :=
  n ← len;
  match position n index with
  | Some i => modify (set_items <[i := item]>)
  | None => raise IndexError
  end.

(** [list.__getitem__(self, index)] for an integer index. *)
Definition list___getitem__ (index : Z) : M store value :=
  st ← get;
  match position (Z.of_nat (length (items st))) index ≫= (items st !!.) with
  | Some v => mret v
  | None => raise IndexError
  end.

(** [self.extend(l)] *)
Definition extend (l : list value) : M store unit :=
  modify (set_items (λ its, its ++ l)).

(** [[x] * n]: no element for [n <= 0]. *)
Definition repeat_list (x : value) (n : Z) : list value :=
  replicate (Z.to_nat n) x.

Definition __setitem__ (index : Z) (item : value) : M store unit :=
  try_except (list___setitem__ index item) is_IndexError (λ _,
    n ← len;
    let diff := (index - n - 1)%Z in
    assert (0 <? diff)%Z;;
    st ← get;
    d ← call (default_factory st) [] [];
    extend (repeat_list d diff ++ [item])).

Definition __getitem__ (index : Z) : M store value :=
  try_except (list___getitem__ index) is_IndexError (λ _,
    st ← get;
    call (default_factory st) [] []).
End defs.
Arguments store : clear implicits.
End defaultlist.

(** ** [Singleton] and [metaStatic] (source lines 9-192)

    A class is a record of its name, its metaclass, the classes that follow
    it in its method resolution order, and its dictionary. The functions
    that the two metaclasses define inside their [__new__] are closures
    over [newcls], the class being created; a closure is found in the
    dictionary of that very class, so [super(newcls, x).name] continues the
    lookup in the classes that follow the class in whose dictionary the
    closure was found. Caller-supplied and built-in callables act on the
    instance world [W]. The classes of the table are ordinary classes:
    none of them is a metaclass. *)

Module Singleton.

Inductive metaclass : Type := type_ | Singleton_ | metaStatic_.

(** What a name can be bound to in a class dictionary, and what a call
    can return. *)
Inductive pyobj : Type :=
| Gen___new__                                 (* lines 60-63 *)
| Gen___init__                                (* lines 66-73 *)
| Static___init__ (classname : string)        (* lines 156-164 *)
| Static___getattribute__ (classname : string)(* lines 167-171 *)
| Static___setitem__                          (* lines 176-177 *)
| Static___delitem__                          (* lines 179-180 *)
| Names (l : list string)                     (* a tuple of strings *)
| Obj (v : value).                            (* any other object *)

#[global] Instance pyobj_eq_dec : EqDecision pyobj.
Proof. solve_decision. Defined.

Record class : Type := Class {
  c_name : string;
  c_meta : metaclass;
  c_mro_tail : list classid;
  c_dict : gmap string pyobj
}.

Definition set_dict (f : gmap string pyobj → gmap string pyobj)
    (c : class) : class :=
  Class (c_name c) (c_meta c) (c_mro_tail c) (f (c_dict c)).

Record store (W : Type) : Type := Store {
  classes : gmap classid class;
  world : W
}.
Arguments Store {W} _ _.
Arguments classes {W} _.
Arguments world {W} _.

(** The interpreter and the classes the module does not define. *)
Record env (W : Type) : Type := Env {
  (* calling a built-in or caller-supplied callable *)
  call : value → args → kwargs → M W value;
  (* type(obj) *)
  class_of : W → value → classid;
  (* bool(obj) *)
  truthy : W → value → bool;
  (* object.__getattribute__(obj, name), for names other than __class__ *)
  instance_attr : gmap classid class → value → string → M W pyobj;
  (* str(obj) *)
  str_ : pyobj → string
}.
Arguments call {W} _ _ _ _ _.
Arguments class_of {W} _ _ _.
Arguments truthy {W} _ _ _.
Arguments instance_attr {W} _ _ _ _ _.
Arguments str_ {W} _ _.

Section defs.
Context {W : Type} (E : env W).

Definition lift {A} (c : M W A) : M (store W) A :=
  λ st, let '(r, w) := c (world st) in (r, Store (classes st) w).

(** [cls.__dict__] *)
Definition class_dict (st : store W) (c : classid) : gmap string pyobj :=
  match classes st !! c with
  | Some cl => c_dict cl
  | None => ∅
  end.

(** [inspect.getmro(cls)] *)
Definition getmro (st : store W) (c : classid) : list classid :=
  match classes st !! c with
  | Some cl => c :: c_mro_tail cl
  | None => []
  end.

(** The first binding of [name] in the dictionaries of [mro]. *)
Fixpoint mro_lookup (st : store W) (mro : list classid) (name : string)
    : option pyobj :=
  match mro with
  | [] => None
  | c :: rest =>
      match class_dict st c !! name with
      | Some o => Some o
      | None => mro_lookup st rest name
      end
  end.

(** Calling an object that is not one of the closures. *)
Definition call_obj (f : pyobj) (a : args) (k : kwargs)
    : M (store W) pyobj :=
  match f with
  | Obj v => r ← lift (call E v a k); mret (Obj r)
  | _ => raise (TypeError "object is not callable")
  end.

(** [cls.name], read, which is [type.__getattribute__(cls, name)] for the
    two names the generated functions read, [_the_instance] and [_hide]:
    neither metaclass has an attribute of these names, so the first binding
    along the resolution order of [cls] is taken, and an object whose type
    defines [__get__] is asked through it (the descriptor protocol), with
    [None] for the instance. A tuple has no [__get__]. *)
Definition class_getattr (cls : classid) (name : string)
    : M (store W) pyobj :=
  st ← get;
  match mro_lookup st (getmro st cls) name with
  | Some (Obj v) =>
      match mro_lookup st (getmro st (class_of E (world st) v)) "__get__" with
      | Some g => call_obj g [v; VNone; VClass cls] []
      | None => mret (Obj v)
      end
  | Some o => mret o
  | None => raise (AttributeError name)
  end.

(** [cls.name = o] through [type.__setattr__], for [name = _the_instance],
    which is none of the names [type] manages itself. *)
Definition class_setattr (cls : classid) (name : string) (o : pyobj)
    : M (store W) unit :=
  modify (λ st,
    Store (alter (set_dict <[name := o]>) cls (classes st)) (world st)).

(** [type.__new__(mcl, classname, bases, dict)]: the new class gets a
    fresh identity; [bases_mro] is the linearisation of [bases] that
    Python computes. *)
Definition type___new__ (mcl : metaclass) (classname : string)
    (bases_mro : list classid) (dict : gmap string pyobj)
    : M (store W) classid :=
  st ← get;
  let c := fresh (dom (classes st)) in
  put (Store (<[c := Class classname mcl bases_mro dict]> (classes st))
             (world st));;
  mret c.

(** The loop shared by both metaclasses (lines 77-81 and 184-188):
    the entries of the class body are added unless the name is
    predefined; the warning issued for a predefined name is not
    modelled. *)
Definition add_classdict (newdict classdict : gmap string pyobj)
    : gmap string pyobj :=
  map_fold (λ k v (nd : gmap string pyobj),
              if bool_decide (is_Some (nd !! k)) then nd
              else <[k := v]> nd)
           newdict classdict.

(** [Singleton.__new__(mcl, classname, bases, classdict)] *)
Definition Singleton___new__ (mcl : metaclass) (classname : string)
    (bases_mro : list classid) (classdict : gmap string pyobj)
    : M (store W) classid :=
  let newdict : gmap string pyobj := {[ "__new__" := Gen___new__ ]} in
  let newdict :=
    if bool_decide (is_Some (classdict !! "__init__")) then newdict
    else <["__init__" := Gen___init__]> newdict in
  let newdict := add_classdict newdict classdict in
  type___new__ mcl classname bases_mro newdict.

Definition _hide : list string :=
  ["clear"; "update"; "pop"; "popitem"; "__setitem__"; "__delitem__";
   "append"; "extend"].

(** [metaStatic.__new__(mcl, classname, bases, classdict)] *)
Definition metaStatic___new__ (mcl : metaclass) (classname : string)
    (bases_mro : list classid) (classdict : gmap string pyobj)
    : M (store W) classid :=
  let newdict : gmap string pyobj :=
    {[ "__init__" := Static___init__ classname ]} in
  let newdict :=
    <["__getattribute__" := Static___getattribute__ classname]> newdict in
  let newdict := <["_hide" := Names _hide]> newdict in
  let newdict := <["__setitem__" := Static___setitem__]> newdict in
  let newdict := <["__delitem__" := Static___delitem__]> newdict in
  let newdict := add_classdict newdict classdict in
  Singleton___new__ mcl classname bases_mro newdict.

(** [object.__getattribute__(self, name)] *)
Definition object___getattribute__ (self : value) (name : string)
    : M (store W) pyobj :=
  st ← get;
  if bool_decide (name = "__class__")
  then mret (Obj (VClass (class_of E (world st) self)))
  else lift (instance_attr E (classes st) self name).

(** [name in t] for the object bound to [_hide]. *)
Definition contains (t : pyobj) (name : string) : M (store W) bool :=
  match t with
  | Names l => mret (bool_decide (name ∈ l))
  | _ => raise (TypeError "argument is not iterable")
  end.

(** [type(self).__getattribute__(self, name)], looked up along [mro]. *)
Fixpoint getattribute_along (mro : list classid) (self : value)
    (name : string) : M (store W) pyobj :=
  match mro with
  | [] => object___getattribute__ self name
  | c :: rest =>
      st ← get;
      match class_dict st c !! "__getattribute__" with
      | None => getattribute_along rest self name
      | Some (Static___getattribute__ classname) =>
          hide ← class_getattr c "_hide";
          hidden ← contains hide name;
          if (hidden : bool)
          then raise (AttributeError
                 ("'" +:+ classname +:+ "' object has no attribute '"
                  +:+ name +:+ "'"))
          else getattribute_along rest self name
      | Some f => call_obj f [self; VStr name] []
      end
  end.

(** [self.name]: [__getattribute__] of the type is called, and when it
    raises [AttributeError] and the type has a [__getattr__], that one is
    called with the name; its outcome is the outcome of the access. The
    hook is looked up on the type before [__getattribute__] runs. *)
Definition getattr (self : value) (name : string) : M (store W) pyobj :=
  st ← get;
  let mro := getmro st (class_of E (world st) self) in
  let hook := mro_lookup st mro "__getattr__" in
  try_except (getattribute_along mro self name) is_AttributeError (λ msg,
    match hook with
    | Some f => call_obj f [self; VStr name] []
    | None => raise (AttributeError msg)
    end).

(** [hasattr(self, name)]: false on any exception. *)
Definition hasattr (self : value) (name : string) : M (store W) bool :=
  try_except (getattr self name;; mret true) any_exception
             (λ _, mret false).

(** [cls.__new__(cls, *p, **k)], looked up along [mro]. *)
Fixpoint new_along (mro : list classid) (cls : classid) (p : args)
    (k : kwargs) : M (store W) pyobj :=
  match mro with
  | [] => raise (AttributeError "__new__")
  | c :: rest =>
      st ← get;
      match class_dict st c !! "__new__" with
      | None => new_along rest cls p k
      | Some Gen___new__ =>
          st ← get;
          (if bool_decide (class_dict st cls !! "_the_instance" = None)
           then o ← new_along rest cls p k;
                class_setattr cls "_the_instance" o
           else mret tt);;
          class_getattr cls "_the_instance"
      | Some f => call_obj f (VClass cls :: p) k
      end
  end.

Definition nonempty (p : args) : bool :=
  match p with [] => false | _ => true end.

(** [type(self).__init__(self, *p, **k)], looked up along [mro]. Both
    generated functions begin with [cls = self.__class__], an attribute
    read like any other, whose result is not used. *)
Fixpoint init_along (mro : list classid) (self : value) (p : args)
    (k : kwargs) : M (store W) pyobj :=
  match mro with
  | [] => raise (AttributeError "__init__")
  | c :: rest =>
      st ← get;
      match class_dict st c !! "__init__" with
      | None => init_along rest self p k
      | Some Gen___init__ =>
          getattr self "__class__";;
          if nonempty p then
            has_clear ← hasattr self "clear";
            (if (has_clear : bool)
             then clear ← getattr self "clear"; call_obj clear [] []
             else init_along rest self [] []);;
            init_along rest self p k;;
            mret (Obj VNone)
          else mret (Obj VNone)
      | Some (Static___init__ classname) =>
          getattr self "__class__";;
          if nonempty p then
            st ← get;
            if negb (truthy E (world st) self)
            then init_along rest self p k
            else raise (TypeError
                   ("'" +:+ classname
                    +:+ "' object does not support redefinition"))
          else mret (Obj VNone)
      | Some f => call_obj f (self :: p) k
      end
  end.

(** [isinstance(obj, cls)] *)
Definition isinstance (st : store W) (o : pyobj) (cls : classid) : bool :=
  match o with
  | Obj v => bool_decide (cls ∈ getmro st (class_of E (world st) v))
  | _ => false
  end.

(** The second half of [type.__call__]: what [__new__] returned is
    initialised when it is an instance of the class. *)
Definition init_step (cls : classid) (obj : pyobj) (p : args) (k : kwargs)
    : M (store W) unit :=
  st ← get;
  if isinstance st obj cls then
    match obj with
    | Obj self =>
        r ← init_along (getmro st (class_of E (world st) self)) self p k;
        if bool_decide (r = Obj VNone) then mret tt
        else raise (TypeError "__init__() should return None")
    | _ => mret tt
    end
  else mret tt.

(** [cls(p, k)], which is [type.__call__]: neither metaclass
    overrides it. *)
Definition type___call__ (cls : classid) (p : args) (k : kwargs)
    : M (store W) pyobj :=
  st ← get;
  obj ← new_along (getmro st cls) cls p k;
  init_step cls obj p k;;
  mret obj.





(** A run of calls to the class: each outcome is recorded, and a call
    that raises leaves its store to the next one. *)
Fixpoint call_many (cls : classid) (calls : list (args * kwargs))
    (st : store W) : list (outcome pyobj) * store W :=
  match calls with
  | [] => ([], st)
  | (p, k) :: rest =>
      let '(r, st1) := type___call__ cls p k st in
      let '(rs, st2) := call_many cls rest st1 in
      (r :: rs, st2)
  end.
End defs.
End Singleton.

(** ** [readonly] and [metaReadOnlyAttr] (source lines 286-354)

    The store is the class table. A class-dictionary entry is a tuple of
    names, a dictionary with names for keys (its keys are what matters: the
    [__readonly__] dictionary), or any other object, which carries the
    attribute [__readonly__] or does not. Of these other objects only the
    strings are containers; the classes of the table are ordinary classes,
    none of them a metaclass. *)

Module metaReadOnlyAttr.

Inductive pyobj : Type :=
| Names (l : list string)
| Dict (d : gset string)
| Plain (v : value)
| Marked (v : value).

#[global] Instance pyobj_eq_dec : EqDecision pyobj.
Proof. solve_decision. Defined.

Record class : Type := Class {
  c_name : string;
  c_mro_tail : list classid;
  c_dict : gmap string pyobj
}.

Definition set_dict (f : gmap string pyobj → gmap string pyobj)
    (c : class) : class :=
  Class (c_name c) (c_mro_tail c) (f (c_dict c)).

Definition set_name (s : string) (c : class) : class :=
  Class s (c_mro_tail c) (c_dict c).

Abbreviation store := (gmap classid class).


(** [hasattr(o, '__readonly__')] for a dictionary entry [o]. *)
Definition has_marker (o : pyobj) : bool :=
  match o with Marked _ => true | _ => false end.

(** The names [for a in o] yields. *)
Definition iter_names (o : pyobj) : outcome (list string) :=
  match o with
  | Names l => Ok l
  | Dict d => Ok (elements d)
  | Plain (VStr s) | Marked (VStr s) => Ok (chars s)
  | _ => Raise (TypeError "object is not iterable")
  end.

Definition class_dict (st : store) (c : classid) : gmap string pyobj :=
  match st !! c with
  | Some cl => c_dict cl
  | None => ∅
  end.

(** [inspect.getmro(cls)] *)
Definition getmro (st : store) (c : classid) : list classid :=
  match st !! c with
  | Some cl => c :: c_mro_tail cl
  | None => []
  end.

Fixpoint mro_lookup (st : store) (mro : list classid) (name : string)
    : option pyobj :=
  match mro with
  | [] => None
  | c :: rest =>
      match class_dict st c !! name with
      | Some o => Some o
      | None => mro_lookup st rest name
      end
  end.

(** [c.name] on a class: [None] stands for [AttributeError], which is
    what [hasattr] tests. *)
Definition class_getattr (st : store) (c : classid) (name : string)
    : option pyobj :=
  mro_lookup st (getmro st c) name.

(** An element of a sequence given to [dict.update] has to be a sequence
    of two items, the key and the value: of a string, these are its two
    characters. *)
Definition pair_key (s : string) : option string :=
  match s with
  | String a (String _ EmptyString) => Some (String a EmptyString)
  | _ => None
  end.

Fixpoint update_seq (ro : gset string) (l : list string)
    : outcome (gset string) :=
  match l with
  | [] => Ok ro
  | s :: l' =>
      match pair_key s with
      | Some key => update_seq ({[key]} ∪ ro) l'
      | None => Raise (ValueError
                  "dictionary update sequence element has a length other than 2")
      end
  end.

(** [readonly.update(o)]: the keys of a dictionary are added; any other
    object is iterated as a sequence of pairs, so that the empty tuple and
    the empty string add nothing, a tuple of two-character strings adds the
    first characters, and any other tuple or string raises [ValueError];
    what cannot be iterated raises [TypeError]. *)
Definition update (ro : gset string) (o : pyobj) : outcome (gset string) :=
  match o with
  | Dict d => Ok (ro ∪ d)
  | Names l => update_seq ro l
  | Plain (VStr s) | Marked (VStr s) => update_seq ro (chars s)
  | _ => Raise (TypeError "object is not iterable")
  end.

(** The loop of [__setattr__] (lines 303-305). *)
Fixpoint collect (st : store) (mro : list classid) (ro : gset string)
    : outcome (gset string) :=
  match mro with
  | [] => Ok ro
  | c :: rest =>
      match class_getattr st c "__readonly__" with
      | Some o =>
          match update ro o with
          | Ok ro' => collect st rest ro'
          | Raise e => Raise e
          end
      | None => collect st rest ro
      end
  end.

(** [type.__setattr__(cls, name, value)] for a class whose metaclass is
    [metaReadOnlyAttr]. The metaclass has a [__doc__] and a [__module__] of
    its own, which hide those of [type]: both names are bound in the class
    dictionary like any other. [__name__] takes a string without a null
    character and renames the class, its dictionary being left alone; the
    other names that [type] manages refuse every value of the model. *)
Definition type___setattr__ (cls : classid) (name : string) (v : pyobj)
    : M store unit :=
  if bool_decide (name = "__name__") then
    match v with
    | Plain (VStr s) | Marked (VStr s) =>
        if has_null s
        then raise (ValueError "__name__ must not contain null bytes")
        else modify (alter (set_name s) cls)
    | _ => raise (TypeError "can only assign string to __name__")
    end
  else if bool_decide (name = "__doc__")
  then modify (alter (set_dict <[name := v]>) cls)
  else
    match type_refuses name with
    | Some e => raise e
    | None => modify (alter (set_dict <[name := v]>) cls)
    end.

(** [metaReadOnlyAttr.__setattr__(cls, name, value)] *)
Definition __setattr__ (cls : classid) (name : string) (v : pyobj)
    : M store unit :=
  st ← get;
  match collect st (getmro st cls) ∅ with
  | Raise e => raise e
  | Ok ro =>
      if bool_decide (name ∈ ro)
      then raise (AttributeError
             ("attribute " +:+ name
              +:+ " is a read only class attribute and cannot be modified on class "
              +:+ match st !! cls with Some cl => c_name cl | None => "" end))
      else type___setattr__ cls name v
  end.

(** The loop of [__new__] (lines 320-322). *)
Definition add_marked (ro : gset string) (classdict : gmap string pyobj)
    : gset string :=
  map_fold (λ a o (ro : gset string),
              if has_marker o then {[a]} ∪ ro else ro)
           ro classdict.

(** The [__readonly__] dictionary that [__new__] computes. *)
Definition new_readonly (classdict : gmap string pyobj)
    : outcome (gset string) :=
  match
    match classdict !! "__readonly__" with
    | Some o =>
        match iter_names o with
        | Ok l => Ok (list_to_set l)
        | Raise e => Raise e
        end
    | None => Ok ∅
    end
  with
  | Ok ro => Ok ({["__readonly__"]} ∪ add_marked ro classdict)
  | Raise e => Raise e
  end.

(** [metaReadOnlyAttr.__new__(mcl, classname, bases, classdict)];
    [bases_mro] is the linearisation of [bases]. *)
Definition __new__ (classname : string) (bases_mro : list classid)
    (classdict : gmap string pyobj) : M store classid :=
  match new_readonly classdict with
  | Raise e => raise e
  | Ok ro =>
      let classdict := <["__readonly__" := Dict ro]> classdict in
      st ← get;
      let c := fresh (dom st) in
      put (<[c := Class classname bases_mro classdict]> st);;
      mret c
  end.
End metaReadOnlyAttr.

(** ** [ModuleInterceptor] (source lines 257-284)

    The wrapped module is an object whose attributes are a finite map in
    the store. The callback is caller-supplied: what it does is given by
    [call], and every call to it is logged. *)

Module ModuleInterceptor.
Section defs.
Context {W : Type}.

Record store : Type := Store {
  module_dict : gmap string value;
  world : W
}.

(** The two attributes [__init__] sets; [module] is what
    [__import__(moduleName, ...)] returned. *)
Record self : Type := Self { module : value; callback : value }.

Variable call : value → args → kwargs → M store value.

(** [getattr(self.module, attr)] *)
Definition module_getattr (attr : string) : M store value :=
  st ← get;
  match module_dict st !! attr with
  | Some v => mret v
  | None => raise (AttributeError
              ("'module' object has no attribute '" +:+ attr +:+ "'"))
  end.

Definition __getattr__ (s : self) (attr : string)
    : M (store * list call_event) value :=
  try_except (unlogged (module_getattr attr)) is_AttributeError (λ msg,
    try_except
      (logged call (callback s) [module s; VStr attr] [];; mret VNone)
      any_exception
      (λ _, raise (AttributeError msg))).

(** What an attribute read on the interceptor yields: an object, or what
    the class [ModuleInterceptor] or [object] provides under the name (a
    bound method, the docstring, the instance dictionary, the class). *)
Inductive found : Type :=
| Attr (v : value)
| OfClass (name : string).

(** The names bound in the dictionary of the class. *)
Definition class_names : list string :=
  ["__init__"; "__getattr__"; "__doc__"; "__module__"; "__dict__";
   "__weakref__"].

(** The names [object] has an attribute for, besides [__class__]; they
    depend on the interpreter's version. *)
Variable object_has : string → bool.

(** The attributes the interceptor has itself, as [__init__] leaves it:
    the data descriptors of its type, then the two entries of its instance
    dictionary, then the other attributes of its type. *)
Definition own (s : self) (attr : string) : option found :=
  if bool_decide (attr ∈ ["__dict__"; "__weakref__"; "__class__"])
  then Some (OfClass attr)
  else if bool_decide (attr = "module") then Some (Attr (module s))
  else if bool_decide (attr = "callback") then Some (Attr (callback s))
  else if bool_decide (attr ∈ class_names) || object_has attr
  then Some (OfClass attr)
  else None.

(** [interceptor.attr]: [__getattr__] is called only for a name the
    interceptor does not have itself. *)
Definition getattr (s : self) (attr : string)
    : M (store * list call_event) found :=
  match own s attr with
  | Some f => mret f
  | None => v ← __getattr__ s attr; mret (Attr v)
  end.
End defs.
Arguments store : clear implicits.
End ModuleInterceptor.

(** ** [proxyClass] (source lines 357-427)

    An entry of the wrapped class's dictionary is an object with, or
    without, the attributes [__doc__] and [__name__]. The generated class
    is the map from method names to the wrappers set on it. Reading an
    attribute of a proxy instance and calling a value (a method, the wrapped
    class, the data function) are given by [getattr_] and [call]. *)

Module proxy.

Record member : Type := Member {
  m_obj : value;
  m_doc : option value;
  m_name : option string
}.

(** The four bodies of [_methodWrapper]. *)
Inductive variant : Type :=
| ImmutableAttr (dataAttrName : string)     (* lines 366-374 *)
| ImmutableFunc (dataFuncName : string)     (* lines 377-385 *)
| MutableAttr (dataAttrName : string)       (* lines 388-396 *)
| MutableFunc (dataFuncName : string).      (* lines 399-407 *)

Record wrapper : Type := Wrapper {
  w_variant : variant;
  w_cls : value;
  w_method : value;
  w_doc : value;
  w_name : string
}.

Record Proxy : Type := MkProxy {
  p_name : string;
  p_dict : gmap string wrapper
}.

(** Truth value of an optional name: [None] and the empty string are
    false. *)
Definition given (name : option string) : bool :=
  match name with
  | None | Some EmptyString => false
  | Some _ => true
  end.

Definition name_of (name : option string) : string := default "" name.

(** The [if]/[elif] chain of lines 365-409. *)
Definition choose (dataAttrName dataFuncName : option string)
    (sourceIsImmutable : bool) : outcome variant :=
  if sourceIsImmutable && given dataAttrName
  then Ok (ImmutableAttr (name_of dataAttrName))
  else if sourceIsImmutable && given dataFuncName
  then Ok (ImmutableFunc (name_of dataFuncName))
  else if negb sourceIsImmutable && given dataAttrName
  then Ok (MutableAttr (name_of dataAttrName))
  else if negb sourceIsImmutable && given dataFuncName
  then Ok (MutableFunc (name_of dataFuncName))
  else Raise (TypeError "Must specify either a dataAttrName or a dataFuncName").

(** [_methodWrapper(method)]: copying [__doc__] and [__name__] raises
    [AttributeError] when the object lacks one of them. *)
Definition _methodWrapper (vr : variant) (cls : value) (method : member)
    : outcome wrapper :=
  match m_doc method with
  | None => Raise (AttributeError "__doc__")
  | Some d =>
      match m_name method with
      | None => Raise (AttributeError "__name__")
      | Some n => Ok (Wrapper vr cls (m_obj method) d n)
      end
  end.

(** The names never proxied (line 410). *)
Definition always_removed : list string :=
  ["__new__"; "__init__"; "__getattribute__"; "__getattr__"].

(** [setattr(Proxy, methodName, _methodWrapper(method))] on the dictionary
    [pd] of the class [Proxy], whose metaclass is [type]: the wrapper is
    built first, then [type.__setattr__] takes it or refuses it. *)
Definition set_wrapper (vr : variant) (cls : value) (methodName : string)
    (method : member) (pd : gmap string wrapper)
    : outcome (gmap string wrapper) :=
  match _methodWrapper vr cls method with
  | Raise e => Raise e
  | Ok w =>
      match type_refuses methodName with
      | Some e => Raise e
      | None => Ok (<[methodName := w]> pd)
      end
  end.

(** The loop of lines 419-424: an [AttributeError] is caught, and the
    message then printed is not modelled; any other exception ends the
    loop and leaves [proxyClass]. The entries are visited in the order of
    the map. *)
Definition add_methods (vr : variant) (cls : value)
    (remove : list string) (cls_dict : gmap string member)
    : outcome (gmap string wrapper) :=
  map_fold (λ methodName method (acc : outcome (gmap string wrapper)),
              match acc with
              | Raise e => Raise e
              | Ok pd =>
                  if bool_decide (methodName ∈ remove) then Ok pd
                  else match set_wrapper vr cls methodName method pd with
                       | Ok pd' => Ok pd'
                       | Raise (AttributeError _) => Ok pd
                       | Raise e => Raise e
                       end
              end)
           (Ok ∅) cls_dict.

(** [proxyClass(cls, classname, dataAttrName, dataFuncName, remove,
    sourceIsImmutable)]; [cls_dict] is [cls.__dict__]. The last statement,
    [Proxy.__name__ = classname], renames the class; [type] refuses a name
    with a null character. *)
Definition proxyClass (cls : value) (cls_dict : gmap string member)
    (classname : string) (dataAttrName dataFuncName : option string)
    (remove : list string) (sourceIsImmutable : bool) : outcome Proxy :=
  if given dataAttrName && given dataFuncName then Raise AssertionError
  else
    match choose dataAttrName dataFuncName sourceIsImmutable with
    | Raise e => Raise e
    | Ok vr =>
        let remove := always_removed ++ remove in
        match add_methods vr cls remove cls_dict with
        | Raise e => Raise e
        | Ok pd =>
            if has_null classname
            then Raise (ValueError "__name__ must not contain null bytes")
            else Ok (MkProxy classname pd)
        end
    end.

Section run.
Context {S : Type}.
Variable getattr_ : value → string → M S value.
Variable call : value → args → kwargs → M S value.
(** Calling, on an instance, an attribute that the generated class does
    not bind to a wrapper: what the class statement leaves in the class
    ([__doc__], [__module__], [__dict__], [__weakref__]) and what [object]
    provides are found there; [AttributeError] otherwise. *)
Variable call_inherited : value → string → args → kwargs → M S value.


End run.
End proxy.

(** ** [lazyLoadModule] (source lines 470-528)

    Each call defines a class [LazyLoadModule] and returns its one instance.
    The store holds the class's dictionary, the instance's dictionary and
    the rest of the world; calls to creators are logged. The class derives
    from [types.ModuleType] and [object], whose data descriptors [__dict__]
    and [__class__] take precedence over the instance dictionary; which
    other attributes the two base classes provide is given by
    [base_has]. *)

Module lazyLoadModule.

(** Entries of the class dictionary. *)
Inductive cmember : Type :=
| LazyLoader_class                       (* the nested class, line 499 *)
| LazyLoader (name : string) (creator : value) (a : args) (k : kwargs)
                                         (* one of its instances *)
| Function___init__                      (* line 516 *)
| Property___all__                       (* line 520 *)
| Classmethod__addattr                   (* line 525 *)
| CVal (v : value).

(** What reading an attribute of the module yields: an object, a list of
    names, a member of the class bound to the module, the class
    [LazyLoadModule] itself, the instance dictionary, or what a base class
    provides under the name. *)
Inductive attr : Type :=
| Val (v : value)
| Strs (l : list string)
| Bound (m : cmember)
| TheClass
| TheDict (d : gmap string value)
| Inherited (name : string).

#[global] Instance cmember_eq_dec : EqDecision cmember.
Proof. solve_decision. Defined.

Section defs.
Context {W : Type}.

Record store : Type := Store {
  cls_dict : gmap string cmember;
  mod_dict : gmap string value;
  world : W
}.

Definition set_cls_dict (f : gmap string cmember → gmap string cmember)
    (st : store) : store :=
  Store (f (cls_dict st)) (mod_dict st) (world st).

Definition set_mod_dict (f : gmap string value → gmap string value)
    (st : store) : store :=
  Store (cls_dict st) (f (mod_dict st)) (world st).

Variable call : value → args → kwargs → M store value.
(** The names for which [types.ModuleType] or [object] has an attribute
    that is not a data descriptor ([__repr__], [__init__], ...). *)
Variable base_has : string → bool.

(** The dictionary of the class statement at line 498. *)
Definition LazyLoadModule_dict : gmap string cmember :=
  {[ "LazyLoader" := LazyLoader_class;
     "__init__" := Function___init__;
     "__all__" := Property___all__;
     "_addattr" := Classmethod__addattr;
     "__module__" := CVal (VStr "pymel.util.utilitytypes");
     "__doc__" := CVal VNone ]}.

(** [lazyLoadModule(name, contents)]: [types.ModuleType.__init__] sets
    [__name__] and [__doc__], then the contents are added. *)
Definition lazyLoadModule (name : string) (contents : gmap string value)
    (w : W) : store :=
  Store LazyLoadModule_dict
        (contents ∪ {[ "__name__" := VStr name; "__doc__" := VNone ]})
        w.

(** [setattr(obj, name, v)] on the module: a property without a setter
    refuses; so do, when the class does not bind the name, the read-only
    [__dict__] of modules and [__class__], which takes a class of the
    layout of modules only: the values of the model are none; anything
    else goes to the instance dictionary. [__get__] reaches the two
    refusals only for a loader bound under another name than its own. *)
Definition instance_setattr (name : string) (v : value) : M store unit :=
  st ← get;
  match cls_dict st !! name with
  | Some Property___all__ => raise (AttributeError "can't set attribute")
  | Some _ => modify (set_mod_dict <[name := v]>)
  | None =>
      if bool_decide (name = "__dict__")
      then raise (TypeError "readonly attribute")
      else if bool_decide (name = "__class__")
      then raise (TypeError "__class__ assignment")
      else modify (set_mod_dict <[name := v]>)
  end.

(** [LazyLoader.__get__(self, obj, objtype)]; [obj] is [None] when the
    attribute is read on the class. *)
Definition __get__ (name : string) (creator : value) (a : args)
    (k : kwargs) (obj_is_module : bool)
    : M (store * list call_event) value :=
  newobj ← logged call creator a k;
  (if obj_is_module then unlogged (instance_setattr name newobj)
   else raise (AttributeError
          ("'NoneType' object has no attribute '" +:+ name +:+ "'")));;
  mret newobj.

(** [setattr(cls, name, loader)] on the class, whose metaclass is [type]:
    the names that [type] manages itself refuse a loader. *)
Definition class_setattr (name : string) (loader : cmember)
    : M store unit :=
  match type_refuses name with
  | Some e => raise e
  | None => modify (set_cls_dict <[name := loader]>)
  end.


Definition startswith_underscore (x : string) : bool :=
  match x with
  | String "_"%char _ => true
  | _ => false
  end.

(** The getter of the property [__all__] (lines 521-523); the order of
    the keys is the maps' own. *)
Definition __all__ (st : store) : list string :=
  filter (λ x, negb (startswith_underscore x) = true)
         ((map_to_list (mod_dict st)).*1 ++ (map_to_list (cls_dict st)).*1).

(** [mod.name]: the name is looked up on the type first, in the class
    and then in its bases. A property found on the class wins, and so do
    the data descriptors [__class__] and [__dict__] of the bases when the
    class does not bind the name; then comes the instance dictionary; then
    what the type has, a [LazyLoader] being asked through [__get__]. *)
Definition getattr (name : string) : M (store * list call_event) attr :=
  st ← unlogged get;
  match cls_dict st !! name with
  | Some Property___all__ => mret (Strs (__all__ st))
  | Some descr =>
      match mod_dict st !! name with
      | Some v => mret (Val v)
      | None =>
          match descr with
          | LazyLoader n c a k => v ← __get__ n c a k true; mret (Val v)
          | CVal v => mret (Val v)
          | m => mret (Bound m)
          end
      end
  | None =>
      if bool_decide (name = "__class__") then mret TheClass
      else if bool_decide (name = "__dict__") then mret (TheDict (mod_dict st))
      else
        match mod_dict st !! name with
        | Some v => mret (Val v)
        | None =>
            if base_has name then mret (Inherited name)
            else raise (AttributeError
                   ("'module' object has no attribute '" +:+ name +:+ "'"))
        end
  end.
End defs.
Arguments store : clear implicits.
End lazyLoadModule.

(** ** [LazyDocString] (source lines 530-642)

    The store maps an object to its [__doc__] and to whether that attribute
    can be assigned; an object absent from the map refuses the assignment:
    with [TypeError] when it is a class, which then is a built-in or
    extension type, and with [AttributeError] otherwise. The string that
    [str.__new__] builds from the argument list is not modelled. Calls to
    the getter are logged. *)

Module LazyDocString.

(** An element of the argument list. *)
Inductive arg : Type :=
| AVal (v : value)
| ATuple (l : list value)
| ADict (k : kwargs).

Record dobj : Type := Dobj { doc : value; doc_writable : bool }.

(** The attributes [__init__] sets. *)
Record self : Type := Self {
  documentedObj : arg;
  docGetter : arg;
  args_ : arg;
  kwargs_ : arg
}.

Section defs.
Context {W : Type}.

Record store : Type := Store {
  objs : gmap value dobj;
  world : W
}.

Variable call : value → args → kwargs → M store value.
(** [o.__class__.__name__] *)
Variable class_name : arg → string.

(** [o.__doc__ = v] *)
Definition set_doc (o : arg) (v : value) : M store unit :=
  st ← get;
  match o with
  | AVal x =>
      match objs st !! x with
      | Some d =>
          if doc_writable d
          then put (Store (<[x := Dobj v true]> (objs st)) (world st))
          else raise (AttributeError "__doc__")
      | None =>
          match x with
          | VClass _ =>
              raise (TypeError
                       "can't set attributes of built-in/extension type")
          | _ => raise (AttributeError "__doc__")
          end
      end
  | _ => raise (AttributeError "__doc__")
  end.

(** [o.__doc__] *)
Definition get_doc (o : arg) : M store value :=
  st ← get;
  match o with
  | AVal x =>
      match objs st !! x with
      | Some d => mret (doc d)
      | None => raise (AttributeError "__doc__")
      end
  | _ => raise (AttributeError "__doc__")
  end.

Definition __init__ (argList : list arg) : M store self :=
  if bool_decide (length argList < 2)%nat
  then raise (LazyDocStringError
         "LazyDocString must be initialized with an iterable of the form: LazyDocString( [documentedObj, docGetter, arg1, arg2, ...] )")
  else
    let documentedObj := default (AVal VNone) (argList !! 0%nat) in
    let docGetter := default (AVal VNone) (argList !! 1%nat) in
    let '(a, k) :=
      if bool_decide (2 < length argList)%nat
      then (default (AVal VNone) (argList !! 2%nat),
            if bool_decide (length argList = 4)%nat
            then default (AVal VNone) (argList !! 3%nat)
            else ADict [])
      else (ATuple [], ADict []) in
    try_except
      (set_doc documentedObj (VStr "LazyDocString placeholder"))
      is_AttributeError
      (λ _, raise (LazyDocStringError
              ("cannot modify the docstring of '"
               +:+ class_name documentedObj +:+ "' objects")));;
    mret (Self documentedObj docGetter a k).

(** [*a]: the positional arguments an object unpacks to. *)
Definition star (a : arg) : outcome args :=
  match a with
  | ATuple l => Ok l
  | ADict k => Ok (VStr <$> k.*1)
  | AVal (VStr s) => Ok (VStr <$> chars s)
  | AVal _ => Raise (TypeError "argument after * must be a sequence")
  end.

(** [**k]: the keyword arguments an object unpacks to. *)
Definition star_star (k : arg) : outcome kwargs :=
  match k with
  | ADict k => Ok k
  | _ => Raise (TypeError "argument after ** must be a mapping")
  end.

Definition of_outcome {S A} (r : outcome A) : M S A :=
  match r with Ok a => mret a | Raise e => raise e end.

(** Calling an element of the argument list. *)
Definition call_arg (f : arg) (a : args) (k : kwargs)
    : M (store * list call_event) value :=
  match f with
  | AVal g => logged call g a k
  | _ => raise (TypeError "object is not callable")
  end.

Definition __str__ (s : self) : M (store * list call_event) value :=
  a ← of_outcome (star (args_ s));
  k ← of_outcome (star_star (kwargs_ s));
  d ← call_arg (docGetter s) a k;
  unlogged (set_doc (documentedObj s) d);;
  unlogged (get_doc (documentedObj s)).

(** [str(self)]: the result of [__str__] has to be a string. *)
Definition str (s : self) : M (store * list call_event) value :=
  r ← __str__ s;
  match r with
  | VStr _ => mret r
  | _ => raise (TypeError "__str__ returned non-string")
  end.
End defs.
Arguments store : clear implicits.
End LazyDocString.


(** ** [defaultdict.copy] (source lines 220-223)

    [copy] is [__copy__], which builds [type(self)(self.default_factory,
    self)]: a new dictionary, initialised from the factory and the items of
    this one. *)

Module defaultdict_copy.
Import defaultdict.
Section defs.
Context {W : Type}.

Definition __copy__ (st : store W) : outcome (store W) :=
  __init__ (default_factory st) (items st) (world st).

Definition copy (st : store W) : outcome (store W) := __copy__ st.
End defs.
End defaultdict_copy.

(** * Part II: properties *)

(** Unfolding the monad's operations in a goal and in the hypotheses. *)
Ltac run :=
  repeat (unfold mbind, mret, M_bind, M_ret, Py.bind, Py.ret, Py.raise,
            Py.get, Py.put, Py.modify, Py.try_except, Py.assert,
            Py.logged, Py.unlogged in *;
          simpl in * ).

(** ** The containers *)

Module defaultdict_facts.
Import defaultdict.

(** A factory that returns 0 and counts its calls in the world. *)
Definition counting_call (f : value) (a : args) (k : kwargs)
    : M (store nat) value :=
  λ st, (Ok (VInt 0),
         Store (items st) (default_factory st) (S (world st))).

Section facts.
Context {W : Type}.
Variable call : value → args → kwargs → M (store W) value.

Lemma getitem_present key v (st : store W) :
  items st !! key = Some v →
  __getitem__ call key st = (Ok v, st).
Proof.
  intros H. unfold __getitem__, dict___getitem__. run. by rewrite H.
Qed.

Lemma getitem_missing_no_factory key (st : store W) :
  items st !! key = None →
  default_factory st = VNone →
  __getitem__ call key st = (Raise (KeyError key), st).
Proof.
  intros H Hf. unfold __getitem__, dict___getitem__, __missing__. run.
  rewrite H. simpl. by rewrite Hf.
Qed.

Lemma getitem_missing_factory key v (st st' : store W) :
  items st !! key = None →
  default_factory st ≠ VNone →
  call (default_factory st) [] [] st = (Ok v, st') →
  __getitem__ call key st = (Ok v, set_items <[key := v]> st').
Proof.
  intros H Hf Hc.
  unfold __getitem__, dict___getitem__, __missing__, dict___setitem__.
  run. rewrite H. simpl.
  rewrite bool_decide_eq_false_2 by done. by rewrite Hc.
Qed.

(** C9. [__getitem__] of the fallback [defaultdict]: a present key
    yields its value and the dictionary is left as it was; a missing
    key raises [KeyError(key)] without change when there is no
    factory; otherwise the value the factory returns is stored under
    the key and returned. *)
Theorem defaultdict_getitem key (st : store W) :
  (∀ v, items st !! key = Some v →
        __getitem__ call key st = (Ok v, st)) ∧
  (items st !! key = None → default_factory st = VNone →
        __getitem__ call key st = (Raise (KeyError key), st)) ∧
  (∀ v st', items st !! key = None → default_factory st ≠ VNone →
        call (default_factory st) [] [] st = (Ok v, st') →
        __getitem__ call key st = (Ok v, set_items <[key := v]> st') ∧
        items (set_items <[key := v]> st') !! key = Some v).
Proof.
  split_and!.
  - intros v. apply getitem_present.
  - apply getitem_missing_no_factory.
  - intros v st' H Hf Hc. split.
    + by apply getitem_missing_factory.
    + simpl. apply lookup_insert_eq.
Qed.
End facts.

Lemma defaultdict_getitem_witness :
  let st := Store {[ VStr "a" := VInt 1 ]} (VFun 1%positive) 0%nat in
  __getitem__ counting_call (VStr "a") st = (Ok (VInt 1), st) ∧
  __getitem__ counting_call (VStr "b")
    (Store (items st) VNone 0%nat)
    = (Raise (KeyError (VStr "b")), Store (items st) VNone 0%nat) ∧
  __getitem__ counting_call (VStr "b") st
    = (Ok (VInt 0),
       Store (<[VStr "b" := VInt 0]> (items st)) (VFun 1%positive) 1%nat).
Proof.
  intros st. split_and!.
  - apply (proj1 (defaultdict_getitem counting_call (VStr "a") st)).
    reflexivity.
  - apply (proj1 (proj2 (defaultdict_getitem counting_call (VStr "b")
                           (Store (items st) VNone 0%nat)))); reflexivity.
  - apply (proj2 (proj2 (defaultdict_getitem counting_call (VStr "b") st))
             (VInt 0) (Store (items st) (VFun 1%positive) 1%nat));
      [reflexivity | discriminate | reflexivity].
Defined.
End defaultdict_facts.

Module defaultlist_facts.
Import defaultlist.

(** The factory [lambda: 0]. *)
Definition zero_call (f : value) (a : args) (k : kwargs)
    : M (store unit) value := λ st, (Ok (VInt 0), st).

Section facts.
Context {W : Type}.
Variable call : value → args → kwargs → M (store W) value.

Lemma position_in_range n index :
  (0 ≤ index < n)%Z → position n index = Some (Z.to_nat index).
Proof.
  intros H. unfold position.
  destruct (Z.ltb_spec index 0); [lia|].
  destruct (Z.leb_spec 0 index); [|lia].
  destruct (Z.ltb_spec index n); [done|lia].
Qed.

Lemma position_beyond n index :
  (0 ≤ n ≤ index)%Z → position n index = None.
Proof.
  intros H. unfold position.
  destruct (Z.ltb_spec index 0); [lia|].
  destruct (Z.leb_spec 0 index); [|lia].
  destruct (Z.ltb_spec index n); [lia|done].
Qed.

(** An index within the list: ordinary item assignment. *)
Lemma setitem_in_range index item (st : store W) :
  (0 ≤ index < Z.of_nat (length (items st)))%Z →
  __setitem__ call index item st
    = (Ok tt, set_items <[Z.to_nat index := item]> st).
Proof.
  intros H. unfold __setitem__, list___setitem__, len. run.
  by rewrite position_in_range.
Qed.

(** An index equal to the length, or one more: the assertion fails. *)
Lemma setitem_just_beyond index item (st : store W) :
  (Z.of_nat (length (items st)) ≤ index
     ≤ Z.of_nat (length (items st)) + 1)%Z →
  __setitem__ call index item st = (Raise AssertionError, st).
Proof.
  intros H. unfold __setitem__, list___setitem__, len. run.
  rewrite position_beyond by lia. simpl.
  destruct (Z.ltb_spec 0 (index - Z.of_nat (length (items st)) - 1)); [lia|].
  done.
Qed.

(** An index at least two beyond the length: the list grows by
    [index - len - 1] defaults and the item. *)
Lemma setitem_far_beyond index item d (st st' : store W) :
  (Z.of_nat (length (items st)) + 2 ≤ index)%Z →
  call (default_factory st) [] [] st = (Ok d, st') →
  __setitem__ call index item st
    = (Ok tt,
       set_items (λ its, its ++ repeat_list d
                    (index - Z.of_nat (length (items st)) - 1) ++ [item])
                 st').
Proof.
  intros H Hc. unfold __setitem__, list___setitem__, len, extend. run.
  rewrite position_beyond by lia. simpl.
  destruct (Z.ltb_spec 0 (index - Z.of_nat (length (items st)) - 1)); [|lia].
  simpl. by rewrite Hc.
Qed.

(** C4, what the code does. Beyond the length the item is never stored
    at the given index: an index equal to the length or one more fails
    the assertion and leaves the list alone; a larger index, with a
    factory that leaves the list alone, stores the item one position
    before the index, and nothing at the index. *)
Theorem defaultlist_setitem_off_by_one index item (st : store W) :
  (Z.of_nat (length (items st)) ≤ index)%Z →
  (index ≤ Z.of_nat (length (items st)) + 1 →
     __setitem__ call index item st = (Raise AssertionError, st))%Z ∧
  (∀ d st',
     (Z.of_nat (length (items st)) + 2 ≤ index)%Z →
     call (default_factory st) [] [] st = (Ok d, st') →
     items st' = items st →
     ∃ st'', __setitem__ call index item st = (Ok tt, st'') ∧
             items st'' !! (Z.to_nat index - 1)%nat = Some item ∧
             items st'' !! Z.to_nat index = None ∧
             length (items st'') = Z.to_nat index).
Proof.
  intros Hge. split.
  - intros Hle. by apply setitem_just_beyond.
  - intros d st' H2 Hc Hfr. eexists. split.
    + by apply setitem_far_beyond.
    + simpl. rewrite Hfr. unfold repeat_list.
      set (n := length (items st)) in *.
      set (m := Z.to_nat (index - Z.of_nat n - 1)).
      assert (Hm : (n + m = Z.to_nat index - 1)%nat) by lia.
      assert (Hlen : length (items st ++ replicate m d ++ [item])
                     = Z.to_nat index).
      { rewrite !length_app, length_replicate. simpl. lia. }
      split_and!; [| |done].
      * rewrite app_assoc, lookup_app_r;
          rewrite length_app, length_replicate; fold n; [|lia].
        by replace (Z.to_nat index - 1 - (n + m))%nat with 0%nat by lia.
      * apply lookup_ge_None. lia.
Qed.
End facts.

Lemma defaultlist_setitem_off_by_one_witness :
  let st := Store [] (VFun 1%positive) tt in
  __setitem__ zero_call 0 (VStr "x") st = (Raise AssertionError, st) ∧
  ∃ st'', __setitem__ zero_call 2 (VStr "x") st = (Ok tt, st'') ∧
          items st'' !! 1%nat = Some (VStr "x") ∧
          items st'' !! 2%nat = None ∧
          length (items st'') = 2%nat.
Proof.
  intros st. split.
  - apply (proj1 (defaultlist_setitem_off_by_one zero_call 0 (VStr "x") st
                    ltac:(simpl; lia))).
    simpl; lia.
  - apply (proj2 (defaultlist_setitem_off_by_one zero_call 2 (VStr "x") st
                    ltac:(simpl; lia)) (VInt 0) st);
      [simpl; lia | reflexivity | reflexivity].
Defined.

(** The list after [l = defaultlist(lambda: 0); l[2] = 'x']. *)
Example setitem_2_on_empty :
  __setitem__ zero_call 2 (VStr "x") (Store [] (VFun 1%positive) tt)
  = (Ok tt, Store [VInt 0; VStr "x"] (VFun 1%positive) tt).
Proof. reflexivity. Qed.
End defaultlist_facts.

(** ** [Singleton] and [metaStatic] *)

Module Singleton_facts.
Import Singleton.

Section facts.
Context {W : Type} (E : env W).

(** The loop that adds the class body keeps what is predefined. *)
Lemma add_classdict_union (nd cd : gmap string pyobj) :
  add_classdict nd cd = nd ∪ cd.
Proof.
  unfold add_classdict.
  apply (map_fold_weak_ind (λ r m, r = nd ∪ m)).
  - by rewrite (right_id_L ∅ (∪)).
  - intros i x m r Hm ->. case_bool_decide as Hi.
    + apply map_eq. intros j. rewrite !lookup_union.
      destruct (decide (i = j)) as [<-|Hne].
      * rewrite lookup_insert_eq, Hm.
        destruct Hi as [y Hy]. rewrite lookup_union, Hm in Hy.
        by destruct (nd !! i).
      * by rewrite lookup_insert_ne.
    + apply insert_union_r.
      destruct (nd !! i) eqn:Hn; [|done].
      exfalso. apply Hi. exists p. by rewrite lookup_union, Hn, Hm.
Qed.

(** *** Computations that leave the class table alone *)

Definition frame {A} (c : M (store W) A) : Prop :=
  ∀ st, classes (c st).2 = classes st.

Lemma frame_ret {A} (a : A) : frame (mret a).
Proof. by intros st. Qed.

Lemma frame_raise {A} e : frame (raise e : M (store W) A).
Proof. by intros st. Qed.

Lemma frame_get : frame (get : M (store W) (store W)).
Proof. by intros st. Qed.

Lemma frame_bind {A B} (c : M (store W) A) (k : A → M (store W) B) :
  frame c → (∀ a, frame (k a)) → frame (c ≫= k).
Proof.
  intros Hc Hk st. unfold mbind, M_bind, Py.bind.
  specialize (Hc st). destruct (c st) as [[a|e] st1]; simpl in *.
  - by rewrite Hk.
  - done.
Qed.

Lemma frame_try {A X} (c : M (store W) A) sel (h : X → M (store W) A) :
  frame c → (∀ x, frame (h x)) → frame (try_except c sel h).
Proof.
  intros Hc Hh st. unfold try_except.
  specialize (Hc st). destruct (c st) as [[a|e] st1]; simpl in *; [done|].
  destruct (sel e); simpl; [by rewrite Hh | done].
Qed.

Lemma frame_lift {A} (c : M W A) : frame (lift c).
Proof. intros st. unfold lift. by destruct (c (world st)). Qed.

Create HintDb frame discriminated.
Hint Resolve frame_ret frame_raise frame_get frame_lift : frame.

Ltac frame_step :=
  first [ apply frame_ret | apply frame_raise | apply frame_get
        | apply frame_lift
        | apply frame_bind; [|intros ?]
        | apply frame_try; [|intros ?] ].

Lemma frame_call_obj f a k : frame (call_obj E f a k).
Proof. destruct f; simpl; repeat frame_step. Qed.

Lemma frame_class_getattr cls name : frame (class_getattr E cls name).
Proof.
  unfold class_getattr. frame_step; [frame_step|].
  destruct (mro_lookup _ _ name) as [o|]; [|frame_step].
  destruct o; try frame_step.
  destruct (mro_lookup _ _ "__get__"); [apply frame_call_obj | frame_step].
Qed.

Lemma frame_object___getattribute__ self name :
  frame (object___getattribute__ E self name).
Proof.
  unfold object___getattribute__. repeat frame_step.
  case_bool_decide; frame_step.
Qed.

Lemma frame_contains t name : frame (contains t name).
Proof. destruct t; simpl; frame_step. Qed.

Lemma frame_getattribute_along mro self name :
  frame (getattribute_along E mro self name).
Proof.
  induction mro as [|c rest IH]; simpl.
  - apply frame_object___getattribute__.
  - frame_step; [frame_step|].
    destruct (class_dict _ c !! "__getattribute__") as [f|]; [|done].
    destruct f; try apply frame_call_obj.
    frame_step; [apply frame_class_getattr|].
    apply frame_bind; [apply frame_contains | intros hidden].
    destruct hidden; [frame_step | done].
Qed.

Lemma frame_getattr self name : frame (getattr E self name).
Proof.
  unfold getattr. frame_step; [frame_step|].
  apply frame_try; [apply frame_getattribute_along | intros msg].
  destruct (mro_lookup _ _ _); [apply frame_call_obj | frame_step].
Qed.

Lemma frame_hasattr self name : frame (hasattr E self name).
Proof.
  unfold hasattr. frame_step; [|frame_step].
  frame_step; [apply frame_getattr | frame_step].
Qed.

Lemma frame_init_along mro self p k :
  frame (init_along E mro self p k).
Proof.
  revert p k. induction mro as [|c rest IH]; intros p k; simpl.
  - frame_step.
  - frame_step; [frame_step|].
    destruct (class_dict _ c !! "__init__") as [f|]; [|done].
    destruct f; try apply frame_call_obj.
    + apply frame_bind; [apply frame_getattr | intros _].
      destruct (nonempty p); [|frame_step].
      apply frame_bind; [apply frame_hasattr | intros has_clear].
      apply frame_bind; [|intros _].
      { destruct has_clear; [|apply IH].
        frame_step; [apply frame_getattr | apply frame_call_obj]. }
      frame_step; [apply IH | frame_step].
    + apply frame_bind; [apply frame_getattr | intros _].
      destruct (nonempty p); [|frame_step].
      frame_step; [frame_step|].
      destruct (negb _); [apply IH | frame_step].
Qed.

Lemma frame_init_step cls obj p k : frame (init_step E cls obj p k).
Proof.
  unfold init_step. frame_step; [frame_step|].
  destruct (isinstance E _ obj cls); [|frame_step].
  destruct obj; try apply frame_ret.
  apply frame_bind; [apply frame_init_along | intros res].
  case_bool_decide; frame_step.
Qed.



(** *** The class table under instantiation *)

Definition with_instance (cls : classid) (o : pyobj)
    (tbl : gmap classid class) : gmap classid class :=
  alter (set_dict <["_the_instance" := o]>) cls tbl.

(** What a call of the class may do to the class table: nothing, or
    bind [_the_instance] in the dictionary of [cls], where it was not
    bound. *)
Definition stores_instance (cls : classid) (st st' : store W) : Prop :=
  classes st' = classes st ∨
  (class_dict st cls !! "_the_instance" = None ∧
   ∃ o, classes st' = with_instance cls o (classes st)).

(** An object that is not a descriptor: its type, in the world [w], has
    no [__get__]. Tuples and functions of the model are read as they
    are. *)
Definition descriptor_free (st : store W) (w : W) (o : pyobj) : Prop :=
  match o with
  | Obj v => mro_lookup st (getmro st (class_of E w v)) "__get__" = None
  | _ => True
  end.


Lemma class_dict_ext (st st' : store W) c :
  classes st' = classes st → class_dict st' c = class_dict st c.
Proof. unfold class_dict. by intros ->. Qed.

Lemma getmro_ext (st st' : store W) c :
  classes st' = classes st → getmro st' c = getmro st c.
Proof. unfold getmro. by intros ->. Qed.

Lemma with_instance_twice cls o o' tbl :
  with_instance cls o (with_instance cls o' tbl) = with_instance cls o tbl.
Proof.
  unfold with_instance. rewrite alter_alter_eq.
  apply alter_ext. intros [n m t d] _. unfold set_dict; simpl.
  by rewrite insert_insert_eq.
Qed.

Lemma class_dict_with_instance cls o (st st' : store W) c :
  classes st' = with_instance cls o (classes st) →
  class_dict st' c =
    if bool_decide (c = cls ∧ is_Some (classes st !! cls))
    then <["_the_instance" := o]> (class_dict st c)
    else class_dict st c.
Proof.
  intros Hst. unfold class_dict, with_instance in *. rewrite Hst.
  destruct (decide (c = cls)) as [->|Hne].
  - rewrite lookup_alter_eq.
    destruct (classes st !! cls) as [cl|] eqn:Hcl; simpl.
    + rewrite bool_decide_eq_true_2; [done | eauto].
    + rewrite bool_decide_eq_false_2; [done|].
      intros [_ [? ?]]; done.
  - rewrite lookup_alter_ne by done.
    rewrite bool_decide_eq_false_2; [done|]. by intros [? _].
Qed.

Lemma getmro_with_instance cls o (st st' : store W) c :
  classes st' = with_instance cls o (classes st) →
  getmro st' c = getmro st c.
Proof.
  intros Hst. unfold getmro, with_instance in *. rewrite Hst.
  destruct (decide (c = cls)) as [->|Hne].
  - rewrite lookup_alter_eq. by destruct (classes st !! cls).
  - by rewrite lookup_alter_ne.
Qed.

Lemma stores_instance_dict cls (st st' : store W) c name :
  stores_instance cls st st' →
  name ≠ "_the_instance" →
  class_dict st' c !! name = class_dict st c !! name.
Proof.
  intros [Heq | [Hn [o Ho]]] Hname.
  - by rewrite (class_dict_ext _ _ _ Heq).
  - rewrite (class_dict_with_instance _ _ _ _ _ Ho).
    case_bool_decide; [|done]. by rewrite lookup_insert_ne.
Qed.

Lemma stores_instance_getmro cls (st st' : store W) c :
  stores_instance cls st st' → getmro st' c = getmro st c.
Proof.
  intros [Heq | [Hn [o Ho]]].
  - by apply getmro_ext.
  - by apply (getmro_with_instance cls o).
Qed.


Lemma mro_lookup_ext (st st' : store W) mro name :
  (∀ c, class_dict st' c !! name = class_dict st c !! name) →
  mro_lookup st' mro name = mro_lookup st mro name.
Proof.
  intros H. induction mro as [|c rest IH]; simpl; [done|].
  by rewrite H, IH.
Qed.






Lemma stores_instance_trans cls (st st1 st2 : store W) :
  stores_instance cls st st1 → classes st2 = classes st1 →
  stores_instance cls st st2.
Proof.
  intros [Hs | [Hn [o Hs]]] H2; [left | right]; [congruence|].
  split; [done|]. exists o. congruence.
Qed.

(** Reading a name bound in the dictionary of the class itself. *)
Lemma class_getattr_own cls name o (st : store W) :
  class_dict st cls !! name = Some o →
  descriptor_free st (world st) o →
  class_getattr E cls name st = (Ok o, st).
Proof.
  intros Ho Hfree. unfold class_getattr.
  unfold mbind at 1, M_bind, Py.bind, get.
  assert (∃ cl, classes st !! cls = Some cl) as [cl Hcl].
  { unfold class_dict in Ho. destruct (classes st !! cls); [eauto|].
    by rewrite lookup_empty in Ho. }
  unfold getmro at 1. rewrite Hcl. cbn [mro_lookup]. rewrite Ho.
  destruct o; try reflexivity.
  simpl in Hfree. by rewrite Hfree.
Qed.

Lemma new_along_stores mro cls p k (st : store W) :
  stores_instance cls st (new_along E mro cls p k st).2.
Proof.
  revert st. induction mro as [|c rest IH]; intros st; simpl.
  - by left.
  - unfold mbind at 1, M_bind, Py.bind, get.
    destruct (class_dict st c !! "__new__") as [f|]; [|apply IH].
    destruct f; try (left; apply (frame_call_obj _ _ _ st)).
    unfold mbind at 1, M_bind, Py.bind, get.
    unfold mbind at 1, M_bind, Py.bind.
    case_bool_decide as Hnone.
    + specialize (IH st).
      unfold mbind at 1, M_bind, Py.bind.
      destruct (new_along E rest cls p k st) as [[o1|e] st1]; simpl in *;
        [|done].
      unfold class_setattr, modify.
      match goal with |- stores_instance _ _ (class_getattr _ _ _ ?s).2 =>
        pose proof (frame_class_getattr cls "_the_instance" s) as Hfr end.
      simpl in Hfr. right. split; [done|]. exists o1. rewrite Hfr.
      destruct IH as [-> | [_ [o' ->]]]; [done|].
      apply with_instance_twice.
    + left. unfold mret, M_ret, Py.ret.
      apply (frame_class_getattr cls "_the_instance" st).
Qed.




Lemma type___call___unfold cls p k (st : store W) :
  type___call__ E cls p k st
  = match new_along E (getmro st cls) cls p k st with
    | (Ok obj, st1) => (init_step E cls obj p k;; mret obj) st1
    | (Raise e, st1) => (Raise e, st1)
    end.
Proof.
  unfold type___call__. unfold mbind at 1, M_bind, Py.bind, get.
  unfold mbind at 1, M_bind, Py.bind. reflexivity.
Qed.

(** A call of the class changes the class table as its [__new__] does. *)
Lemma type___call___stores cls p k (st : store W) :
  stores_instance cls st (type___call__ E cls p k st).2.
Proof.
  rewrite type___call___unfold.
  pose proof (new_along_stores (getmro st cls) cls p k st) as Hs.
  destruct (new_along E (getmro st cls) cls p k st) as [[obj|e] st1];
    simpl in Hs; [|done].
  unfold mbind, M_bind, Py.bind.
  pose proof (frame_init_step cls obj p k st1) as Hfr.
  destruct (init_step E cls obj p k st1) as [[[]|e] st2]; simpl in *;
    by apply (stores_instance_trans cls st st1).
Qed.





(** Calls of a class leave every entry of every class dictionary in
    place, but for [_the_instance], and every resolution order. *)
Lemma call_many_stores cls calls (st : store W) :
  (∀ c name, name ≠ "_the_instance" →
     class_dict (call_many E cls calls st).2 c !! name
       = class_dict st c !! name) ∧
  (∀ c, getmro (call_many E cls calls st).2 c = getmro st c).
Proof.
  revert st. induction calls as [|[p k] rest IH]; intros st; simpl; [done|].
  pose proof (type___call___stores cls p k st) as Hs.
  destruct (type___call__ E cls p k st) as [r st1]. simpl in Hs.
  specialize (IH st1).
  destruct (call_many E cls rest st1) as [rs st2]. simpl in *.
  destruct IH as [IH1 IH2]. split.
  - intros c name Hname. rewrite IH1 by done.
    by apply (stores_instance_dict cls).
  - intros c. rewrite IH2. by apply (stores_instance_getmro cls).
Qed.

Lemma call_many_dict cls calls (st : store W) c name :
  name ≠ "_the_instance" →
  class_dict (call_many E cls calls st).2 c !! name
    = class_dict st c !! name.
Proof. intros. by apply call_many_stores. Qed.

Lemma call_many_getmro cls calls (st : store W) c :
  getmro (call_many E cls calls st).2 c = getmro st c.
Proof. apply call_many_stores. Qed.

Lemma call_many_mro_lookup cls calls (st : store W) c name :
  name ≠ "_the_instance" →
  mro_lookup (call_many E cls calls st).2
    (getmro (call_many E cls calls st).2 c) name
  = mro_lookup st (getmro st c) name.
Proof.
  intros Hname. rewrite call_many_getmro. apply mro_lookup_ext.
  intros c'. by apply call_many_dict.
Qed.


(** What [Singleton.__new__] creates. *)
Lemma Singleton___new___creates mcl classname bases_mro classdict cls
    (st0 st1 : store W) :
  Singleton___new__ mcl classname bases_mro classdict st0 = (Ok cls, st1) →
  classes st0 !! cls = None ∧
  classes st1 = <[cls := Class classname mcl bases_mro
                    (({[ "__new__" := Gen___new__ ]} ∪
                      (if bool_decide (is_Some (classdict !! "__init__"))
                       then ∅ else {[ "__init__" := Gen___init__ ]})) ∪
                     classdict)]> (classes st0) ∧
  world st1 = world st0.
Proof.
  unfold Singleton___new__, type___new__. run. intros [= <- <-]. simpl.
  split_and!; [| |done].
  - apply not_elem_of_dom, is_fresh.
  - f_equal. f_equal. rewrite add_classdict_union. f_equal.
    case_bool_decide.
    + by rewrite (right_id_L ∅ (∪)).
    + apply map_eq. intros i.
      destruct (decide (i = "__init__")) as [->|Hne].
      * by rewrite lookup_insert_eq.
      * rewrite lookup_insert_ne by done.
        rewrite lookup_union. rewrite (lookup_singleton_ne "__init__") by done.
        by destruct (_ !! i).
Qed.

Lemma Singleton___new___dict mcl classname bases_mro classdict cls
    (st0 st1 : store W) :
  Singleton___new__ mcl classname bases_mro classdict st0 = (Ok cls, st1) →
  class_dict st1 cls !! "__new__" = Some Gen___new__ ∧
  (∀ name, name ≠ "__new__" → name ≠ "__init__" →
           class_dict st1 cls !! name = classdict !! name).
Proof.
  intros H. destruct (Singleton___new___creates _ _ _ _ _ _ _ H)
    as (_ & Hcl & _).
  unfold class_dict. rewrite Hcl, lookup_insert_eq. simpl. split.
  - rewrite <- (assoc_L (∪)). rewrite lookup_union, lookup_singleton_eq.
    by destruct (_ !! "__new__").
  - intros name Hn Hi. rewrite !lookup_union.
    rewrite lookup_singleton_ne by done.
    case_bool_decide.
    + by rewrite lookup_empty, !(left_id_L None _).
    + rewrite lookup_singleton_ne by done.
      by rewrite !(left_id_L None _).
Qed.



(** *** [metaStatic] *)

(** The entries [metaStatic.__new__] predefines. *)
Definition static_class (st : store W) (cls : classid)
    (classname : string) : Prop :=
  class_dict st cls !! "__setitem__" = Some Static___setitem__ ∧
  class_dict st cls !! "__delitem__" = Some Static___delitem__ ∧
  class_dict st cls !! "__getattribute__"
    = Some (Static___getattribute__ classname) ∧
  class_dict st cls !! "_hide" = Some (Names _hide).

Lemma metaStatic___new___dict mcl classname bases_mro classdict cls
    (st0 st1 : store W) :
  metaStatic___new__ mcl classname bases_mro classdict st0 = (Ok cls, st1) →
  class_dict st1 cls !! "__new__" = Some Gen___new__ ∧
  static_class st1 cls classname.
Proof.
  unfold metaStatic___new__. intros H.
  destruct (Singleton___new___dict _ _ _ _ _ _ _ H) as [Hnew Hother].
  split; [done|]. unfold static_class.
  rewrite !Hother by done. rewrite add_classdict_union, !lookup_union.
  split_and!;
    repeat (rewrite lookup_insert_ne by done);
    rewrite lookup_insert_eq; by destruct (classdict !! _).
Qed.





(** An attribute read whose [__getattribute__] returns. *)
Lemma getattr_returns self name r (st st' : store W) :
  getattribute_along E (getmro st (class_of E (world st) self)) self name st
    = (Ok r, st') →
  getattr E self name st = (Ok r, st').
Proof.
  intros H. unfold getattr. unfold mbind at 1, M_bind, Py.bind, get.
  unfold try_except. by rewrite H.
Qed.




(** [type(self).__getattribute__] is [object.__getattribute__] when no
    class of the resolution order defines one. *)
Lemma getattribute_along_object mro self name (st : store W) :
  Forall (λ c, class_dict st c !! "__getattribute__" = None) mro →
  getattribute_along E mro self name st
    = object___getattribute__ E self name st.
Proof.
  induction 1 as [|c l Hc _ IH]; cbn [getattribute_along]; [done|].
  unfold mbind at 1, M_bind, Py.bind, get. by rewrite Hc.
Qed.

Lemma object___getattribute_____class__ self (st : store W) :
  object___getattribute__ E self "__class__" st
    = (Ok (Obj (VClass (class_of E (world st) self))), st).
Proof. unfold object___getattribute__. by run. Qed.

(** [self.__class__] is readable without effect when the class is the
    only one in its resolution order to define [__getattribute__]. *)
Lemma getattr___class___plain cls classname self (st : store W) :
  static_class st cls classname →
  class_of E (world st) self = cls →
  (∀ cl, classes st !! cls = Some cl →
         Forall (λ c', class_dict st c' !! "__getattribute__" = None)
                (c_mro_tail cl)) →
  getattr E self "__class__" st = (Ok (Obj (VClass cls)), st).
Proof.
  intros Hst Hcls Htail.
  destruct Hst as (Hsome & _ & Hga & Hhide).
  apply getattr_returns.
  rewrite Hcls. unfold getmro. unfold class_dict in Hsome.
  destruct (classes st !! cls) as [cl|] eqn:Hcl;
    [|by rewrite lookup_empty in Hsome].
  cbn [getattribute_along]. unfold mbind at 1, M_bind, Py.bind, get.
  rewrite Hga. unfold mbind at 1, M_bind, Py.bind.
  rewrite (class_getattr_own _ _ _ _ Hhide I).
  unfold mbind at 1, M_bind, Py.bind. cbn [contains].
  unfold mret, M_ret, Py.ret. rewrite bool_decide_eq_false_2.
  2:{ unfold _hide. rewrite !elem_of_cons, elem_of_nil.
      intros H. by repeat destruct H as [H|H]. }
  rewrite (getattribute_along_object _ _ _ _ (Htail cl eq_refl)).
  by rewrite object___getattribute_____class__, Hcls.
Qed.

(** The same, for a class none of whose ancestors, nor itself, defines
    [__getattribute__]. *)
Lemma getattr___class___object self (st : store W) :
  Forall (λ c, class_dict st c !! "__getattribute__" = None)
         (getmro st (class_of E (world st) self)) →
  getattr E self "__class__" st
    = (Ok (Obj (VClass (class_of E (world st) self))), st).
Proof.
  intros Hall. apply getattr_returns.
  rewrite (getattribute_along_object _ _ _ _ Hall).
  apply object___getattribute_____class__.
Qed.


End facts.

(** *** A concrete interpreter

    One built-in class, [object], whose [__new__] allocates the next
    location and whose [__init__] does nothing; every object is an
    instance of class 2, the first class created after [object]. *)

Definition E0 : env positive := {|
  call := λ f a k w,
    match f with
    | VFun 1%positive => (Ok (VRef w), Pos.succ w)
    | _ => (Ok VNone, w)
    end;
  class_of := λ w v, 2%positive;
  truthy := λ w v, false;
  instance_attr := λ tbl self name w, (Raise (AttributeError name), w);
  str_ := λ o, "<class 'FrozenDictSingleton'>"
|}.

Definition object_class : class :=
  Class "object" type_ []
    {[ "__new__" := Obj (VFun 1%positive);
       "__init__" := Obj (VFun 2%positive) ]}.

Definition st0 : store positive :=
  Store {[ 1%positive := object_class ]} 1%positive.

(** [class DictSingleton(object): __metaclass__ = Singleton] *)
Definition st_Singleton : store positive :=
  (Singleton___new__ Singleton_ "DictSingleton" [1%positive] ∅ st0).2.


Definition three_calls : list (args * kwargs) :=
  [([], []); ([VInt 1], []); ([], [("a", VInt 2)])].

Example DictSingleton_calls :
  (call_many E0 2%positive three_calls st_Singleton).1
  = [Ok (Obj (VRef 1%positive)); Ok (Obj (VRef 1%positive));
     Ok (Obj (VRef 1%positive))].
Proof. vm_compute. reflexivity. Qed.



(** A class like [dict]: [__new__] allocates, [__init__] accepts no
    integer, instances have a [clear]; and a class body whose [__get__]
    allocates. *)
Definition E2 : env positive := {|
  call := λ f a k w,
    match f with
    | VFun 1%positive => (Ok (VRef w), Pos.succ w)
    | VFun 2%positive =>
        match a with
        | [_; VInt _] => (Raise (TypeError "'int' object is not iterable"), w)
        | _ => (Ok VNone, w)
        end
    | VFun 3%positive => (Ok (VRef w), Pos.succ w)
    | VFun 4%positive => (Ok (VInt 42), w)
    | _ => (Ok VNone, w)
    end;
  class_of := λ w v, 2%positive;
  truthy := λ w v, false;
  instance_attr := λ tbl self name w,
    if bool_decide (name = "clear") then (Ok (Obj (VFun 5%positive)), w)
    else (Raise (AttributeError name), w);
  str_ := λ o, "<class 'FrozenDictSingleton'>"
|}.

(** [class Descr(object): __metaclass__ = Singleton], with a [__get__]
    in its body. *)
Definition st_Descr : store positive :=
  (Singleton___new__ Singleton_ "Descr" [1%positive]
     {[ "__get__" := Obj (VFun 3%positive) ]} st0).2.

(** C1 as stated fails. After [DictSingleton()], the call
    [DictSingleton(5)] raises the [TypeError] of the inherited [__init__]
    instead of returning the instance; and two calls of a class whose
    instances are descriptors return two different objects, neither of
    which is the stored instance. *)
Lemma Singleton_single_instance_counterexample :
  (let st := (type___call__ E2 2%positive [] [] st_Singleton).2 in
   class_dict st 2%positive !! "_the_instance" = Some (Obj (VRef 1%positive)) ∧
   (type___call__ E2 2%positive [VInt 5] [] st).1
     = Raise (TypeError "'int' object is not iterable")) ∧
  (call_many E2 2%positive [([], []); ([], [])] st_Descr).1
    = [Ok (Obj (VRef 2%positive)); Ok (Obj (VRef 3%positive))] ∧
  class_dict (call_many E2 2%positive [([], []); ([], [])] st_Descr).2
    2%positive !! "_the_instance" = Some (Obj (VRef 1%positive)).
Proof. vm_compute. done. Qed.

(** [class Fallback(object): __metaclass__ = metaStatic], with a
    [__getattr__] in its body. *)
Definition st_Fallback : store positive :=
  (metaStatic___new__ metaStatic_ "Fallback" [1%positive]
     {[ "__getattr__" := Obj (VFun 4%positive) ]} st0).2.

(** C2 as stated fails: on an instance of a [metaStatic] class whose body
    defines [__getattr__], reading the hidden name [clear] returns what
    that [__getattr__] returns. *)
Lemma metaStatic_instances_immutable_counterexample :
  let st := (type___call__ E2 2%positive [] [] st_Fallback).2 in
  class_dict st 2%positive !! "_the_instance" = Some (Obj (VRef 1%positive)) ∧
  "clear" ∈ _hide ∧
  getattr E2 (VRef 1%positive) "clear" st = (Ok (Obj (VInt 42)), st).
Proof.
  split_and!; [vm_compute; reflexivity | | vm_compute; reflexivity].
  unfold _hide. apply elem_of_cons. by left.
Qed.

End Singleton_facts.

(** ** [metaReadOnlyAttr] *)

Module metaReadOnlyAttr_facts.
Import metaReadOnlyAttr.



















(** *** Assignment through [type.__setattr__] *)







(** *** [__setattr__] *)







(** [class A: __metaclass__ = metaReadOnlyAttr; __readonly__ = ('x',);
    x = 1; y = 2], with a method [f] decorated by [readonly]. *)
Definition body_A : gmap string pyobj :=
  {[ "__readonly__" := Names ["x"];
     "x" := Plain (VInt 1);
     "y" := Plain (VInt 2);
     "f" := Marked (VFun 1%positive) ]}.

Definition st_A : store := (__new__ "A" [] body_A ∅).2.

Example A_readonly :
  class_dict st_A 1%positive !! "__readonly__"
  = Some (Dict {[ "__readonly__"; "x"; "f" ]}).
Proof. vm_compute. reflexivity. Qed.


Lemma getmro_st_A c d :
  c ∈ getmro st_A 1%positive →
  class_getattr st_A c "__readonly__" = Some (Dict d) →
  d = {[ "__readonly__"; "x"; "f" ]}.
Proof.
  intros Hc Hd.
  assert (c = 1%positive) as ->.
  { vm_compute in Hc. apply list_elem_of_singleton in Hc. exact Hc. }
  assert (class_getattr st_A 1%positive "__readonly__"
          = Some (Dict {[ "__readonly__"; "x"; "f" ]})) as Hfact
    by (vm_compute; reflexivity).
  rewrite Hfact in Hd. by inversion Hd.
Qed.


(** [class Base(object): __readonly__ = ('x',)], an ordinary class, and
    [class C(Base): __metaclass__ = metaReadOnlyAttr]. *)
Definition st_Base : store :=
  {[ 1%positive := Class "Base" [] {[ "__readonly__" := Names ["x"] ]} ]}.

Definition st_C : store := (__new__ "C" [1%positive] ∅ st_Base).2.

(** C3 as stated fails. On the class [A] above, [__mro__] is in no
    [__readonly__] dictionary, and assigning it raises [TypeError]. On the
    class [C], whose base holds a tuple under [__readonly__], every
    assignment raises [ValueError]: [y], which is in no [__readonly__]
    dictionary, cannot be assigned, and assigning [__readonly__], which is
    in the dictionary of [C], does not raise [AttributeError]. *)
Lemma metaReadOnlyAttr_protects_counterexample :
  ((∀ c d, c ∈ getmro st_A 1%positive →
           class_getattr st_A c "__readonly__" = Some (Dict d) →
           "__mro__" ∉ d) ∧
   __setattr__ 1%positive "__mro__" (Plain (VInt 5)) st_A
     = (Raise (TypeError "readonly attribute"), st_A)) ∧
  (class_dict st_C 2%positive !! "__readonly__"
     = Some (Dict {[ "__readonly__" ]}) ∧
   class_dict st_C 1%positive !! "__readonly__" = Some (Names ["x"]) ∧
   getmro st_C 2%positive = [2%positive; 1%positive] ∧
   __setattr__ 2%positive "y" (Plain (VInt 1)) st_C
     = (Raise (ValueError
          "dictionary update sequence element has a length other than 2"),
        st_C) ∧
   __setattr__ 2%positive "__readonly__" (Plain (VInt 1)) st_C
     = (Raise (ValueError
          "dictionary update sequence element has a length other than 2"),
        st_C)).
Proof.
  split; [split|].
  - intros c d Hc Hd. rewrite (getmro_st_A c d Hc Hd).
    rewrite !elem_of_union, !elem_of_singleton.
    intros [[H|H]|H]; discriminate H.
  - vm_compute. reflexivity.
  - split_and!; vm_compute; reflexivity.
Qed.
End metaReadOnlyAttr_facts.

(** ** [ModuleInterceptor] *)

Module ModuleInterceptor_facts.
Import ModuleInterceptor.

(** The callback of the class's docstring: it accepts ["this"] and
    raises [ValueError] for any other name. *)
Definition cb (f : value) (a : args) (k : kwargs) : M (store unit) value :=
  match a with
  | [_; VStr "this"] => mret VNone
  | _ => raise (ValueError "")
  end.

Definition os_module : store unit := Store {[ "sep" := VStr "/" ]} tt.

Definition interceptor : self := Self (VRef 1%positive) (VFun 1%positive).

Section facts.
Context {W : Type}.
Variable call : value → args → kwargs → M (store W) value.
Variable object_has : string → bool.


Lemma getattr_found s attr v (st : store W) log :
  module_dict st !! attr = Some v →
  __getattr__ call s attr (st, log) = (Ok v, (st, log)).
Proof.
  intros H. unfold __getattr__, module_getattr. run. by rewrite H.
Qed.


Lemma getattr_callback_returns s attr r (st st' : store W) log :
  module_dict st !! attr = None →
  call (callback s) [module s; VStr attr] [] st = (Ok r, st') →
  __getattr__ call s attr (st, log)
    = (Ok VNone,
       (st', log ++ [Called (callback s) [module s; VStr attr] []])).
Proof.
  intros H Hc. unfold __getattr__, module_getattr. run.
  rewrite H. simpl. by rewrite Hc.
Qed.



End facts.

(** The attributes [object] has, besides [__class__] (CPython 2.7). *)
Definition object_names (attr : string) : bool :=
  bool_decide (attr ∈ ["__delattr__"; "__doc__"; "__format__";
                       "__getattribute__"; "__hash__"; "__init__"; "__new__";
                       "__reduce__"; "__reduce_ex__"; "__repr__";
                       "__setattr__"; "__sizeof__"; "__str__";
                       "__subclasshook__"]).


(** A module that has attributes named [callback] and [__doc__]. *)
Definition shadowed_module : store unit :=
  Store {[ "callback" := VInt 5; "__doc__" := VStr "module doc" ]} tt.

(** C10 as stated fails: the wrapped module has the attributes [callback]
    and [__doc__], and looking them up on the interceptor yields the
    interceptor's own callback and the docstring of its class, not the
    module's attributes. *)
Lemma ModuleInterceptor_getattr_counterexample :
  module_dict shadowed_module !! "callback" = Some (VInt 5) ∧
  getattr cb object_names interceptor "callback" (shadowed_module, [])
    = (Ok (Attr (VFun 1%positive)), (shadowed_module, [])) ∧
  module_dict shadowed_module !! "__doc__" = Some (VStr "module doc") ∧
  getattr cb object_names interceptor "__doc__" (shadowed_module, [])
    = (Ok (OfClass "__doc__"), (shadowed_module, [])).
Proof. split_and!; vm_compute; reflexivity. Qed.
End ModuleInterceptor_facts.

(** ** [lazyLoadModule] *)

Module lazyLoadModule_facts.
Import lazyLoadModule.


Section facts.
Context {W : Type}.
Variable call : value → args → kwargs → M (store W) value.
Variable base_has : string → bool.






End facts.



End lazyLoadModule_facts.

(** ** [LazyDocString] *)

Module LazyDocString_facts.
Import LazyDocString.

(** [getDocStringFromDict] of the class's docstring, for one object. *)
Definition getDocStringFromDict (f : value) (a : args) (k : kwargs)
    : M (store unit) value :=
  match a with
  | [VFun 7%positive] => mret (VStr "Method docs!")
  | _ => raise (KeyError (default VNone (head a)))
  end.

Definition type_name (o : arg) : string := "function".

(** A function [aMethod] without docstring. *)
Definition st_aMethod : store unit :=
  Store {[ VFun 7%positive := Dobj VNone true ]} tt.

Section facts.
Context {W : Type}.
Variable call : value → args → kwargs → M (store W) value.
Variable class_name : arg → string.

Definition with_doc (obj d : value) (st : store W) : store W :=
  Store (<[obj := Dobj d true]> (objs st)) (world st).

(** The attributes [__init__] stores, for the three shapes of the
    argument list. *)
Lemma __init___stores obj g rest dob (st : store W) :
  objs st !! obj = Some dob →
  doc_writable dob = true →
  __init__ class_name (AVal obj :: AVal g :: rest) st
    = (Ok (Self (AVal obj) (AVal g)
             (default (ATuple []) (head rest))
             (match rest with [_; k] => k | _ => ADict [] end)),
       with_doc obj (VStr "LazyDocString placeholder") st).
Proof.
  intros Ho Hw. unfold __init__, set_doc.
  rewrite bool_decide_eq_false_2 by (simpl; lia).
  destruct rest as [|a [|k [|x rest]]]; simpl; run;
    rewrite Ho, Hw; try done.
Qed.

Lemma __str___calls obj g a k d dob (st st' : store W) log :
  call g a k st = (Ok d, st') →
  objs st' !! obj = Some dob →
  doc_writable dob = true →
  __str__ call (Self (AVal obj) (AVal g) (ATuple a) (ADict k)) (st, log)
    = (Ok d, (with_doc obj d st', log ++ [Called g a k])).
Proof.
  intros Hc Ho Hw. unfold __str__, set_doc, get_doc, call_arg. run.
  rewrite Hc. simpl. rewrite Ho, Hw. simpl. by rewrite lookup_insert_eq.
Qed.

(** C7. Constructing a [LazyDocString] from
    [(documentedObj, docGetter, args, kwargs)] calls nothing: it stores
    the four and sets the placeholder. The string conversion calls
    [docGetter] with the stored arguments once, assigns the result to the
    documented object's [__doc__] and returns it. *)
Theorem LazyDocString_defers obj g a k dob (st : store W) log :
  let s := Self (AVal obj) (AVal g) (ATuple a) (ADict k) in
  let st1 := with_doc obj (VStr "LazyDocString placeholder") st in
  objs st !! obj = Some dob →
  doc_writable dob = true →
  unlogged (__init__ class_name [AVal obj; AVal g; ATuple a; ADict k])
      (st, log)
    = (Ok s, (st1, log)) ∧
  ∀ d st2 dob2,
    call g a k st1 = (Ok d, st2) →
    objs st2 !! obj = Some dob2 →
    doc_writable dob2 = true →
    __str__ call s (st1, log)
      = (Ok d, (with_doc obj d st2, log ++ [Called g a k])) ∧
    get_doc (AVal obj) (with_doc obj d st2) = (Ok d, with_doc obj d st2) ∧
    (∀ text, d = VStr text →
             str call s (st1, log)
               = (Ok d, (with_doc obj d st2, log ++ [Called g a k]))).
Proof.
  intros s st1 Ho Hw. split.
  - unfold unlogged.
    by rewrite (__init___stores obj g [ATuple a; ADict k] dob st Ho Hw).
  - intros d st2 dob2 Hc Ho2 Hw2.
    pose proof (__str___calls obj g a k d dob2 st1 st2 log Hc Ho2 Hw2)
      as Hstr.
    split_and!; [done | |].
    + unfold get_doc. run. by rewrite lookup_insert_eq.
    + intros text ->. unfold str.
      unfold mbind at 1, M_bind, Py.bind. fold s in Hstr.
      by rewrite Hstr.
Qed.
End facts.

(** [aMethod.__doc__ = LazyDocString((aMethod, getDocStringFromDict,
    (aMethod,)))], then [str]. *)
Lemma LazyDocString_defers_witness :
  let s := Self (AVal (VFun 7%positive)) (AVal (VFun 8%positive))
                (ATuple [VFun 7%positive]) (ADict []) in
  let st1 := with_doc (VFun 7%positive) (VStr "LazyDocString placeholder")
               st_aMethod in
  let log := [Called (VFun 8%positive) [VFun 7%positive] []] in
  unlogged (__init__ type_name
              [AVal (VFun 7%positive); AVal (VFun 8%positive);
               ATuple [VFun 7%positive]; ADict []]) (st_aMethod, [])
    = (Ok s, (st1, [])) ∧
  __str__ getDocStringFromDict s (st1, [])
    = (Ok (VStr "Method docs!"),
       (with_doc (VFun 7%positive) (VStr "Method docs!") st1, log)).
Proof.
  intros s st1 log.
  destruct (LazyDocString_defers getDocStringFromDict type_name
              (VFun 7%positive) (VFun 8%positive) [VFun 7%positive] []
              (Dobj VNone true) st_aMethod [] eq_refl eq_refl)
    as [Hinit Hstr].
  split; [exact Hinit|].
  apply (Hstr (VStr "Method docs!") st1
           (Dobj (VStr "LazyDocString placeholder") true));
    reflexivity.
Defined.
End LazyDocString_facts.

(** ** [proxyClass] *)

Module proxy_facts.
Import proxy.

(** The wrapper [_methodWrapper] makes of an entry, if any. *)
Definition wrapped (vr : variant) (cls : value) (m : member)
    : option wrapper :=
  match _methodWrapper vr cls m with
  | Ok w => Some w
  | Raise _ => None
  end.

Lemma wrapped_Some vr cls m w :
  wrapped vr cls m = Some w ↔
  ∃ d n, m_doc m = Some d ∧ m_name m = Some n ∧
         w = Wrapper vr cls (m_obj m) d n.
Proof.
  unfold wrapped, _methodWrapper.
  destruct (m_doc m) as [d|], (m_name m) as [n|]; split;
    try (intros [= <-]; eauto); try done;
    intros (d' & n' & Hd & Hn & Hw); try done.
  inversion Hd; inversion Hn; by subst.
Qed.

Lemma _methodWrapper_wrapped vr cls m :
  _methodWrapper vr cls m
  = match wrapped vr cls m with
    | Some w => Ok w
    | None => Raise (AttributeError
                (match m_doc m with None => "__doc__" | _ => "__name__" end))
    end.
Proof.
  unfold wrapped, _methodWrapper.
  by destruct (m_doc m), (m_name m).
Qed.

(** The wrapper set on the generated class for an entry, if any: the
    entry has to be wrapped, and [type.__setattr__] has to accept the
    name. *)
Definition proxied (vr : variant) (cls : value) (name : string)
    (m : member) : option wrapper :=
  match type_refuses name with
  | None => wrapped vr cls m
  | Some _ => None
  end.

(** An entry that ends the loop: it is wrapped, and [type.__setattr__]
    refuses its name with [TypeError], which the loop does not catch. *)
Definition blocked (remove : list string) (cls_dict : gmap string member)
    : Prop :=
  ∃ name m msg, cls_dict !! name = Some m ∧ (name ∉ remove) ∧
                is_Some (m_doc m) ∧ is_Some (m_name m) ∧
                type_refuses name = Some (TypeError msg).

Lemma type_refuses_kinds name e :
  type_refuses name = Some e →
  (∃ msg, e = TypeError msg) ∨ (∃ msg, e = AttributeError msg).
Proof.
  unfold type_refuses. repeat case_bool_decide; intros [= <-]; eauto.
Qed.

Lemma blocked_insert remove (m : gmap string member) i x :
  m !! i = None →
  blocked remove (<[i := x]> m) ↔
  blocked remove m ∨
  ((i ∉ remove) ∧ is_Some (m_doc x) ∧ is_Some (m_name x) ∧
   ∃ msg, type_refuses i = Some (TypeError msg)).
Proof.
  intros Hi. split.
  - intros (name & y & msg & Hy & Hrem & Hd & Hn & Hr).
    destruct (decide (i = name)) as [->|Hne].
    + rewrite lookup_insert_eq in Hy. inversion Hy; subst. right. eauto.
    + rewrite lookup_insert_ne in Hy by done. left.
      by exists name, y, msg.
  - intros [(name & y & msg & Hy & Hrem & Hd & Hn & Hr)
           | (Hrem & Hd & Hn & msg & Hr)].
    + exists name, y, msg. split_and!; try done.
      rewrite lookup_insert_ne; [done | congruence].
    + exists i, x, msg. split_and!; try done. apply lookup_insert_eq.
Qed.

(** The loop over [cls.__dict__.items()], entry by entry: it ends with
    [TypeError] when an entry blocks it, and otherwise binds the wrappers
    of the entries that are not removed and can be set. *)
Lemma add_methods_spec vr cls remove (cls_dict : gmap string member) :
  match add_methods vr cls remove cls_dict with
  | Ok pd =>
      (∀ n, pd !! n = if bool_decide (n ∈ remove) then None
                      else cls_dict !! n ≫= proxied vr cls n) ∧
      ¬ blocked remove cls_dict
  | Raise e => (∃ msg, e = TypeError msg) ∧ blocked remove cls_dict
  end.
Proof.
  unfold add_methods.
  apply (map_fold_weak_ind
           (λ (r : outcome (gmap string wrapper)) (m : gmap string member),
              match r with
              | Ok pd =>
                  (∀ n, pd !! n = if bool_decide (n ∈ remove) then None
                                  else m !! n ≫= proxied vr cls n) ∧
                  ¬ blocked remove m
              | Raise e => (∃ msg, e = TypeError msg) ∧ blocked remove m
              end)).
  - split.
    + intros n. rewrite !lookup_empty. by case_bool_decide.
    + intros (name & y & msg & Hy & _). by rewrite lookup_empty in Hy.
  - intros i x m r Hm IH.
    destruct r as [pd|e].
    2:{ destruct IH as [He Hb]. split; [done|].
        apply blocked_insert; [done | by left]. }
    destruct IH as [IH Hnb].
    case_bool_decide as Hrem.
    { split.
      - intros n. destruct (decide (i = n)) as [->|Hne].
        + rewrite IH. by rewrite !bool_decide_eq_true_2.
        + rewrite IH. by rewrite lookup_insert_ne.
      - rewrite blocked_insert by done. intros [Hb | (Hnr & _)]; done. }
    unfold set_wrapper. rewrite _methodWrapper_wrapped.
    destruct (wrapped vr cls x) as [w|] eqn:Hw.
    + apply wrapped_Some in Hw as (d & nm & Hd & Hn & ->).
      destruct (type_refuses i) as [e|] eqn:Hr.
      * destruct (type_refuses_kinds _ _ Hr) as [[msg ->] | [msg ->]].
        -- split; [by eexists|]. apply blocked_insert; [done|]. right.
           split_and!; [done | by rewrite Hd | by rewrite Hn | by eexists].
        -- split.
           ++ intros n. destruct (decide (i = n)) as [->|Hne].
              ** rewrite IH, Hm, lookup_insert_eq. simpl.
                 unfold proxied. rewrite Hr. by case_bool_decide.
              ** rewrite IH. by rewrite lookup_insert_ne.
           ++ rewrite blocked_insert by done.
              intros [Hb | (_ & _ & _ & msg' & Hr')]; [done|congruence].
      * split.
        -- intros n. destruct (decide (i = n)) as [->|Hne].
           ++ rewrite !lookup_insert_eq. simpl.
              rewrite bool_decide_eq_false_2 by done.
              unfold proxied. rewrite Hr. symmetry.
              apply wrapped_Some. eauto.
           ++ rewrite !lookup_insert_ne by done. apply IH.
        -- rewrite blocked_insert by done.
           intros [Hb | (_ & _ & _ & msg' & Hr')]; [done|congruence].
    + split.
      * intros n. destruct (decide (i = n)) as [->|Hne].
        -- rewrite IH, Hm, lookup_insert_eq. simpl.
           unfold proxied. rewrite Hw.
           case_bool_decide; [done|]. by destruct (type_refuses n).
        -- rewrite IH. by rewrite lookup_insert_ne.
      * rewrite blocked_insert by done.
        intros [Hb | (_ & [d Hd] & [nm Hn] & _)]; [done|].
        assert (is_Some (wrapped vr cls x)) as [w Hw'].
        { eexists. apply wrapped_Some. eauto. }
        congruence.
Qed.

Lemma add_methods_lookup vr cls remove (cls_dict : gmap string member) pd n :
  add_methods vr cls remove cls_dict = Ok pd →
  pd !! n = if bool_decide (n ∈ remove) then None
            else cls_dict !! n ≫= proxied vr cls n.
Proof.
  intros H. pose proof (add_methods_spec vr cls remove cls_dict) as Hs.
  rewrite H in Hs. apply Hs.
Qed.


Section facts.
Context {S : Type}.
Variable getattr_ : value → string → M S value.
Variable call : value → args → kwargs → M S value.
Variable call_inherited : value → string → args → kwargs → M S value.





Lemma proxyClass_Ok cls cls_dict classname dataAttrName dataFuncName remove
    sourceIsImmutable P :
  proxyClass cls cls_dict classname dataAttrName dataFuncName remove
             sourceIsImmutable = Ok P →
  given dataAttrName && given dataFuncName = false ∧
  has_null classname = false ∧
  ∃ vr pd, choose dataAttrName dataFuncName sourceIsImmutable = Ok vr ∧
           add_methods vr cls (always_removed ++ remove) cls_dict = Ok pd ∧
           P = MkProxy classname pd.
Proof.
  unfold proxyClass. intros HP.
  destruct (given dataAttrName && given dataFuncName) eqn:Hboth; [done|].
  split; [done|].
  destruct (choose dataAttrName dataFuncName sourceIsImmutable)
    as [vr|e] eqn:Hch; [|done].
  cbv zeta in HP.
  destruct (add_methods vr cls (always_removed ++ remove) cls_dict)
    as [pd|e] eqn:Hadd; [|done].
  destruct (has_null classname); [done|].
  split; [done|].
  injection HP as <-. by exists vr, pd.
Qed.

End facts.








End proxy_facts.

(** ** Class dictionaries after class creation *)

Module class_dictionaries.





End class_dictionaries.

(** * Part III: further properties of the code *)

(** ** The containers *)

Module defaultdict_more.
Import defaultdict defaultdict_copy.

Section facts.
Context {W : Type}.
Variable call : value → args → kwargs → M (store W) value.

(** A default is computed once: after a lookup of a missing key has stored
    the factory's value, the next lookup of the key returns that value and
    leaves the store, the world of the factory included, as it is, whatever
    the factory would do. *)
Theorem defaultdict_default_computed_once key v (st st1 : store W) :
  items st !! key = None →
  default_factory st ≠ VNone →
  call (default_factory st) [] [] st = (Ok v, st1) →
  let st2 := set_items <[key := v]> st1 in
  __getitem__ call key st = (Ok v, st2) ∧
  __getitem__ call key st2 = (Ok v, st2) ∧
  (∀ key', key' ≠ key → items st2 !! key' = items st1 !! key').
Proof.
  intros Hm Hf Hc st2. split_and!.
  - by apply defaultdict_facts.getitem_missing_factory.
  - apply defaultdict_facts.getitem_present. apply lookup_insert_eq.
  - intros key' Hne. simpl. by rewrite lookup_insert_ne.
Qed.

(** When the factory raises, the lookup raises the factory's exception, not
    [KeyError], and stores nothing: the store is the one the factory
    left. *)
Theorem defaultdict_factory_raises key e (st st1 : store W) :
  items st !! key = None →
  default_factory st ≠ VNone →
  call (default_factory st) [] [] st = (Raise e, st1) →
  __getitem__ call key st = (Raise e, st1).
Proof.
  intros Hm Hf Hc.
  unfold __getitem__, dict___getitem__, __missing__. run.
  rewrite Hm. simpl. rewrite bool_decide_eq_false_2 by done.
  by rewrite Hc.
Qed.

(** A dictionary that [__init__] built can always be copied, and the copy
    has the same items and the same factory. *)
Theorem defaultdict_copy_same factory a w (st : store W) :
  __init__ factory a w = Ok st →
  copy st = Ok st ∧ items st = a ∧ default_factory st = factory.
Proof.
  unfold copy, __copy__, __init__.
  destruct (negb (bool_decide (factory = VNone)) && negb (callable factory))
    eqn:Hok; [done|].
  intros [= <-]. simpl. by rewrite Hok.
Qed.
End facts.

(** A factory that fails. *)
Definition failing_call (f : value) (a : args) (k : kwargs)
    : M (store nat) value :=
  λ st, (Raise (UserError "boom"),
         Store (items st) (default_factory st) (S (world st))).

Lemma defaultdict_default_computed_once_witness :
  let st := Store {[ VStr "a" := VInt 1 ]} (VFun 1%positive) 0%nat in
  let st1 := Store {[ VStr "a" := VInt 1 ]} (VFun 1%positive) 1%nat in
  let st2 := set_items <[VStr "b" := VInt 0]> st1 in
  __getitem__ defaultdict_facts.counting_call (VStr "b") st
    = (Ok (VInt 0), st2) ∧
  __getitem__ defaultdict_facts.counting_call (VStr "b") st2
    = (Ok (VInt 0), st2) ∧
  (∀ key', key' ≠ VStr "b" → items st2 !! key' = items st1 !! key').
Proof.
  intros st st1 st2.
  apply (defaultdict_default_computed_once defaultdict_facts.counting_call
           (VStr "b") (VInt 0) st st1);
    [vm_compute; reflexivity | discriminate | reflexivity].
Defined.

Lemma defaultdict_factory_raises_witness :
  let st := Store {[ VStr "a" := VInt 1 ]} (VFun 1%positive) 0%nat in
  __getitem__ failing_call (VStr "b") st
    = (Raise (UserError "boom"),
       Store {[ VStr "a" := VInt 1 ]} (VFun 1%positive) 1%nat).
Proof.
  intros st.
  apply (defaultdict_factory_raises failing_call (VStr "b")
           (UserError "boom") st);
    [vm_compute; reflexivity | discriminate | reflexivity].
Defined.

Lemma defaultdict_copy_same_witness :
  let st := Store ({[ VStr "a" := VInt 1 ]} : gmap value value)
              (VFun 1%positive) tt in
  copy st = Ok st ∧ items st = {[ VStr "a" := VInt 1 ]} ∧
  default_factory st = VFun 1%positive.
Proof.
  intros st.
  apply (defaultdict_copy_same (VFun 1%positive) {[ VStr "a" := VInt 1 ]} tt st).
  reflexivity.
Defined.
End defaultdict_more.

Module defaultlist_more.
Import defaultlist.

Section facts.
Context {W : Type}.
Variable call : value → args → kwargs → M (store W) value.

Lemma position_negative n index :
  (- n ≤ index < 0)%Z → position n index = Some (Z.to_nat (n + index)).
Proof.
  intros H. unfold position.
  destruct (Z.ltb_spec index 0); [|lia].
  destruct (Z.leb_spec 0 (index + n)); [|lia].
  destruct (Z.ltb_spec (index + n) n); [|lia].
  simpl. f_equal. lia.
Qed.

Lemma position_outside n index :
  (0 ≤ n)%Z → (n ≤ index ∨ index < - n)%Z → position n index = None.
Proof.
  intros Hn H. unfold position.
  destruct (Z.ltb_spec index 0).
  - destruct (Z.leb_spec 0 (index + n)); [lia | done].
  - destruct (Z.leb_spec 0 index); [|lia].
    destruct (Z.ltb_spec index n); [lia | done].
Qed.

Lemma position_Some_lt n index i :
  position n index = Some i → (Z.of_nat i < n)%Z.
Proof.
  unfold position.
  destruct (Z.ltb_spec index 0);
    match goal with |- context [(0 <=? ?x)%Z] =>
      destruct (Z.leb_spec 0 x), (Z.ltb_spec x n) end;
    simpl; intros [= <-]; lia.
Qed.

(** Reading: an index within the list, counted from the front or, when
    negative, from the end, yields the item and changes nothing; any other
    index yields what the factory returns, and the default is not stored:
    the list is as the factory left it. *)
Theorem defaultlist_getitem index (st : store W) :
  let n := Z.of_nat (length (items st)) in
  (∀ v, (0 ≤ index < n)%Z → items st !! Z.to_nat index = Some v →
        __getitem__ call index st = (Ok v, st)) ∧
  (∀ v, (- n ≤ index < 0)%Z → items st !! Z.to_nat (n + index) = Some v →
        __getitem__ call index st = (Ok v, st)) ∧
  ((n ≤ index ∨ index < - n)%Z →
        __getitem__ call index st = call (default_factory st) [] [] st).
Proof.
  intros n. unfold __getitem__, list___getitem__. split_and!.
  - intros v Hr Hv. run. fold n.
    rewrite defaultlist_facts.position_in_range by done. simpl.
    by rewrite Hv.
  - intros v Hr Hv. run. fold n. rewrite position_negative by done. simpl.
    by rewrite Hv.
  - intros Hr. run. fold n. rewrite position_outside by (unfold n; lia).
    simpl. by destruct (call (default_factory st) [] [] st) as [[v|e] st'].
Qed.

(** Assigning at a valid index and reading it back: the item is read, the
    length is unchanged and the other positions are untouched. *)
Theorem defaultlist_setitem_getitem index item (st : store W) :
  (0 ≤ index < Z.of_nat (length (items st)))%Z →
  ∃ st', __setitem__ call index item st = (Ok tt, st') ∧
         __getitem__ call index st' = (Ok item, st') ∧
         length (items st') = length (items st) ∧
         (∀ j, j ≠ Z.to_nat index → items st' !! j = items st !! j) ∧
         default_factory st' = default_factory st ∧ world st' = world st.
Proof.
  intros Hr. eexists. split; [by apply defaultlist_facts.setitem_in_range|].
  split_and!; simpl; try done.
  - unfold __getitem__, list___getitem__. run. rewrite length_insert.
    rewrite defaultlist_facts.position_in_range by done. simpl.
    rewrite list_lookup_insert_eq by lia. done.
  - apply length_insert.
  - intros j Hj. by rewrite list_lookup_insert_ne.
Qed.

(** Negative indices in assignment: one within the list assigns counting
    from the end; one before the start of the list fails the assertion,
    where a list raises [IndexError], and changes nothing. *)
Theorem defaultlist_setitem_negative index item (st : store W) :
  let n := Z.of_nat (length (items st)) in
  (index < 0)%Z →
  ((- n ≤ index)%Z →
     __setitem__ call index item st
       = (Ok tt, set_items <[Z.to_nat (n + index) := item]> st)) ∧
  ((index < - n)%Z →
     __setitem__ call index item st = (Raise AssertionError, st)).
Proof.
  intros n Hneg. unfold __setitem__, list___setitem__, len. split.
  - intros Hr. run. fold n. by rewrite position_negative by lia.
  - intros Hr. run. fold n. rewrite position_outside by (unfold n; lia).
    simpl. fold n. destruct (Z.ltb_spec 0 (index - n - 1)); [lia|].
    reflexivity.
Qed.
End facts.

Definition abc : store unit :=
  Store [VStr "a"; VStr "b"; VStr "c"] (VFun 1%positive) tt.

Lemma defaultlist_getitem_witness :
  __getitem__ defaultlist_facts.zero_call 1 abc = (Ok (VStr "b"), abc) ∧
  __getitem__ defaultlist_facts.zero_call (-1) abc = (Ok (VStr "c"), abc) ∧
  __getitem__ defaultlist_facts.zero_call 7 abc = (Ok (VInt 0), abc).
Proof.
  split_and!.
  - apply (proj1 (defaultlist_getitem defaultlist_facts.zero_call 1 abc));
      [simpl; lia | reflexivity].
  - apply (proj1 (proj2 (defaultlist_getitem defaultlist_facts.zero_call
                           (-1) abc)));
      [simpl; lia | reflexivity].
  - rewrite (proj2 (proj2 (defaultlist_getitem defaultlist_facts.zero_call
                             7 abc))); [reflexivity | simpl; lia].
Defined.

Lemma defaultlist_setitem_getitem_witness :
  ∃ st', __setitem__ defaultlist_facts.zero_call 1 (VInt 9) abc = (Ok tt, st') ∧
         __getitem__ defaultlist_facts.zero_call 1 st' = (Ok (VInt 9), st') ∧
         length (items st') = 3%nat ∧
         (∀ j, j ≠ 1%nat → items st' !! j = items abc !! j) ∧
         default_factory st' = VFun 1%positive ∧ world st' = tt.
Proof.
  apply (defaultlist_setitem_getitem defaultlist_facts.zero_call 1 (VInt 9) abc).
  simpl; lia.
Defined.

Lemma defaultlist_setitem_negative_witness :
  __setitem__ defaultlist_facts.zero_call (-1) (VInt 9) abc
    = (Ok tt, set_items <[2%nat := VInt 9]> abc) ∧
  __setitem__ defaultlist_facts.zero_call (-4) (VInt 9) abc
    = (Raise AssertionError, abc).
Proof.
  split.
  - apply (proj1 (defaultlist_setitem_negative defaultlist_facts.zero_call
                    (-1) (VInt 9) abc ltac:(lia))).
    simpl; lia.
  - apply (proj2 (defaultlist_setitem_negative defaultlist_facts.zero_call
                    (-4) (VInt 9) abc ltac:(lia))).
    simpl; lia.
Defined.
End defaultlist_more.

(** ** [Singleton] and [metaStatic] *)

Module Singleton_more.
Import Singleton.

Section facts.
Context {W : Type} (E : env W).

Lemma Singleton___new_____init__ mcl classname bases_mro classdict cls
    (st0 st1 : store W) :
  Singleton___new__ mcl classname bases_mro classdict st0 = (Ok cls, st1) →
  class_dict st1 cls !! "__init__"
    = Some (default Gen___init__ (classdict !! "__init__")).
Proof.
  intros H. destruct (Singleton_facts.Singleton___new___creates _ _ _ _ _ _ _ H)
    as (_ & Hcl & _).
  unfold class_dict. rewrite Hcl, lookup_insert_eq. simpl.
  rewrite !lookup_union. rewrite lookup_singleton_ne by done.
  destruct (classdict !! "__init__") as [x|] eqn:Hx.
  - rewrite bool_decide_eq_true_2 by eauto. by rewrite lookup_empty.
  - rewrite bool_decide_eq_false_2 by (by intros [? ?]).
    by rewrite lookup_singleton_eq.
Qed.

Lemma Singleton___new___others mcl classname bases_mro classdict cls
    (st0 st1 : store W) :
  Singleton___new__ mcl classname bases_mro classdict st0 = (Ok cls, st1) →
  classes st0 !! cls = None ∧
  ∀ c, c ≠ cls → classes st1 !! c = classes st0 !! c.
Proof.
  intros H. destruct (Singleton_facts.Singleton___new___creates _ _ _ _ _ _ _ H)
    as (Hfresh & Hcl & _).
  split; [done|]. intros c Hc. rewrite Hcl. by rewrite lookup_insert_ne.
Qed.

Lemma metaStatic___new_____init__ mcl classname bases_mro classdict cls
    (st0 st1 : store W) :
  metaStatic___new__ mcl classname bases_mro classdict st0 = (Ok cls, st1) →
  class_dict st1 cls !! "__init__" = Some (Static___init__ classname).
Proof.
  unfold metaStatic___new__. intros H.
  rewrite (Singleton___new_____init__ _ _ _ _ _ _ _ H).
  rewrite Singleton_facts.add_classdict_union, lookup_union.
  repeat (rewrite lookup_insert_ne by done).
  rewrite lookup_singleton_eq. by destruct (classdict !! "__init__").
Qed.

(** The names [metaStatic.__new__] predefines. *)
Definition static_names : list string :=
  ["__new__"; "__init__"; "__getattribute__"; "_hide"; "__setitem__";
   "__delitem__"].

(** A class body cannot override what [Singleton] predefines: the class
    always gets the generated [__new__]; it gets the body's [__init__] when
    there is one and the generated one otherwise; every other name of the
    body is bound as in the body. The class is new and no other class of
    the table is touched. *)
Theorem Singleton_class_body mcl classname bases_mro classdict cls
    (st0 st1 : store W) :
  Singleton___new__ mcl classname bases_mro classdict st0 = (Ok cls, st1) →
  class_dict st1 cls !! "__new__" = Some Gen___new__ ∧
  class_dict st1 cls !! "__init__"
    = Some (default Gen___init__ (classdict !! "__init__")) ∧
  (∀ name, name ≠ "__new__" → name ≠ "__init__" →
           class_dict st1 cls !! name = classdict !! name) ∧
  getmro st1 cls = cls :: bases_mro ∧
  classes st0 !! cls = None ∧
  (∀ c, c ≠ cls → classes st1 !! c = classes st0 !! c).
Proof.
  intros H.
  destruct (Singleton_facts.Singleton___new___dict _ _ _ _ _ _ _ H)
    as [Hnew Hother].
  destruct (Singleton___new___others _ _ _ _ _ _ _ H) as [Hfresh Hrest].
  split_and!; try done.
  - by apply (Singleton___new_____init__ mcl classname bases_mro _ _ st0).
  - destruct (Singleton_facts.Singleton___new___creates _ _ _ _ _ _ _ H)
      as (_ & Hcl & _).
    unfold getmro. by rewrite Hcl, lookup_insert_eq.
Qed.

(** A class body cannot override anything [metaStatic] predefines: the six
    predefined names are bound to the generated functions and to the tuple
    of hidden names whatever the body says, and every other name of the
    body is bound as in the body. *)
Theorem metaStatic_class_body mcl classname bases_mro classdict cls
    (st0 st1 : store W) :
  metaStatic___new__ mcl classname bases_mro classdict st0 = (Ok cls, st1) →
  class_dict st1 cls !! "__new__" = Some Gen___new__ ∧
  class_dict st1 cls !! "__init__" = Some (Static___init__ classname) ∧
  class_dict st1 cls !! "__getattribute__"
    = Some (Static___getattribute__ classname) ∧
  class_dict st1 cls !! "_hide" = Some (Names _hide) ∧
  class_dict st1 cls !! "__setitem__" = Some Static___setitem__ ∧
  class_dict st1 cls !! "__delitem__" = Some Static___delitem__ ∧
  (∀ name, name ∉ static_names →
           class_dict st1 cls !! name = classdict !! name).
Proof.
  intros H.
  destruct (Singleton_facts.metaStatic___new___dict _ _ _ _ _ _ _ H)
    as (Hnew & Hset & Hdel & Hga & Hhide).
  pose proof (metaStatic___new_____init__ _ _ _ _ _ _ _ H) as Hinit.
  unfold metaStatic___new__ in H.
  destruct (Singleton_facts.Singleton___new___dict _ _ _ _ _ _ _ H)
    as [_ Hother].
  split_and!; try done.
  - intros name Hname. unfold static_names in Hname.
    rewrite !not_elem_of_cons in Hname.
    destruct Hname as (? & ? & ? & ? & ? & ? & _).
    rewrite Hother by done.
    rewrite Singleton_facts.add_classdict_union, lookup_union.
    repeat (rewrite lookup_insert_ne by done).
    rewrite lookup_singleton_ne by done. by destruct (classdict !! name).
Qed.




End facts.


(** A class body that tries to redefine [__new__] and [_hide]. *)
Definition body_B : gmap string pyobj :=
  {[ "__new__" := Obj (VInt 0); "_hide" := Names []; "x" := Obj (VInt 1) ]}.

Definition st_B : store positive :=
  (Singleton___new__ Singleton_ "B" [1%positive] body_B Singleton_facts.st0).2.

Definition st_SB : store positive :=
  (metaStatic___new__ metaStatic_ "SB" [1%positive] body_B
     Singleton_facts.st0).2.

Lemma Singleton_class_body_witness :
  class_dict st_B 2%positive !! "__new__" = Some Gen___new__ ∧
  class_dict st_B 2%positive !! "__init__" = Some Gen___init__ ∧
  class_dict st_B 2%positive !! "x" = Some (Obj (VInt 1)) ∧
  getmro st_B 2%positive = [2%positive; 1%positive].
Proof.
  destruct (Singleton_class_body Singleton_ "B" [1%positive] body_B 2%positive
              Singleton_facts.st0 st_B ltac:(vm_compute; reflexivity))
    as (H1 & H2 & H3 & H4 & _).
  split_and!; [exact H1 | exact H2 | | exact H4].
  rewrite H3 by done. vm_compute. reflexivity.
Defined.

Lemma metaStatic_class_body_witness :
  class_dict st_SB 2%positive !! "__new__" = Some Gen___new__ ∧
  class_dict st_SB 2%positive !! "_hide" = Some (Names _hide) ∧
  class_dict st_SB 2%positive !! "x" = Some (Obj (VInt 1)).
Proof.
  destruct (metaStatic_class_body metaStatic_ "SB" [1%positive] body_B
              2%positive Singleton_facts.st0 st_SB
              ltac:(vm_compute; reflexivity))
    as (H1 & _ & _ & H4 & _ & _ & H7).
  split_and!; [exact H1 | exact H4 |].
  rewrite H7; [vm_compute; reflexivity|].
  unfold static_names. rewrite !elem_of_cons, elem_of_nil.
  intros H. by repeat destruct H as [H|H].
Defined.





End Singleton_more.

(** ** [readonly] and [metaReadOnlyAttr] *)

Module metaReadOnlyAttr_more.
Import metaReadOnlyAttr metaReadOnlyAttr_facts.












End metaReadOnlyAttr_more.

(** ** [proxyClass] *)

Module proxy_more.
Import proxy.


(** What the generated class never has, and where what it has comes from:
    no removed name is proxied, be it one of the four names always removed
    or one the caller gave; every method of the generated class wraps the
    entry of that name of the wrapped class, whose [__name__] and [__doc__]
    it carries; an entry without [__name__] or [__doc__] is not proxied. *)
Theorem proxyClass_methods cls cls_dict classname dataAttrName dataFuncName
    remove sourceIsImmutable P :
  proxyClass cls cls_dict classname dataAttrName dataFuncName remove
             sourceIsImmutable = Ok P →
  (∀ name, name ∈ always_removed ++ remove → p_dict P !! name = None) ∧
  (∀ name w, p_dict P !! name = Some w →
     ∃ m, cls_dict !! name = Some m ∧ w_method w = m_obj m ∧
          m_name m = Some (w_name w) ∧ m_doc m = Some (w_doc w) ∧
          w_cls w = cls) ∧
  (∀ name m, cls_dict !! name = Some m →
     m_name m = None ∨ m_doc m = None → p_dict P !! name = None).
Proof.
  intros HP.
  destruct (proxy_facts.proxyClass_Ok _ _ _ _ _ _ _ _ HP)
    as (_ & _ & vr & pd & _ & Hadd & ->).
  cbn [p_dict].
  pose proof (λ n, proxy_facts.add_methods_lookup vr cls _ cls_dict pd n Hadd)
    as Hlook.
  split_and!.
  - intros name Hin. rewrite Hlook.
    by rewrite bool_decide_eq_true_2.
  - intros name w. rewrite Hlook.
    case_bool_decide; [done|].
    destruct (cls_dict !! name) as [m|]; [|done]. simpl.
    unfold proxy_facts.proxied.
    destruct (type_refuses name); [done|].
    intros Hw. apply proxy_facts.wrapped_Some in Hw as (d & n & Hd & Hn & ->).
    exists m. by rewrite Hd, Hn.
  - intros name m Hm Hnone. rewrite Hlook.
    case_bool_decide; [done|]. rewrite Hm. simpl.
    unfold proxy_facts.proxied.
    destruct (type_refuses name); [done|].
    unfold proxy_facts.wrapped, _methodWrapper.
    destruct Hnone as [Hn|Hd].
    + rewrite Hn. by destruct (m_doc m).
    + by rewrite Hd.
Qed.




(** The dictionary of a small string class: a method, a [__doc__] string,
    and a constructor. *)
Definition dict_str : gmap string member :=
  {[ "upper" := Member (VFun 1%positive) (Some VNone) (Some "upper");
     "__doc__" := Member (VStr "doc") (Some VNone) None;
     "__new__" := Member (VFun 2%positive) (Some VNone) (Some "__new__");
     "translate" := Member (VFun 3%positive) (Some VNone) (Some "translate") ]}.

Definition ProxyStr : Proxy :=
  match proxyClass (VClass 1%positive) dict_str "ProxyUnicode" None
          (Some "name") ["translate"] true with
  | Ok P => P
  | Raise _ => MkProxy "" ∅
  end.

Lemma proxyClass_methods_witness :
  p_dict ProxyStr !! "__new__" = None ∧
  p_dict ProxyStr !! "translate" = None ∧
  p_dict ProxyStr !! "__doc__" = None ∧
  (∀ name w, p_dict ProxyStr !! name = Some w →
     ∃ m, dict_str !! name = Some m ∧ w_method w = m_obj m ∧
          m_name m = Some (w_name w) ∧ m_doc m = Some (w_doc w) ∧
          w_cls w = VClass 1%positive).
Proof.
  destruct (proxyClass_methods (VClass 1%positive) dict_str "ProxyUnicode"
              None (Some "name") ["translate"] true ProxyStr eq_refl)
    as (H1 & H2 & H3).
  split_and!.
  - apply H1. unfold always_removed. cbn [app]. apply elem_of_cons. by left.
  - apply H1. unfold always_removed. cbn [app].
    rewrite !elem_of_cons. do 4 right. by left.
  - apply (H3 "__doc__" (Member (VStr "doc") (Some VNone) None));
      [vm_compute; reflexivity | by left].
  - exact H2.
Defined.
End proxy_more.

(** ** [lazyLoadModule] *)

Module lazyLoadModule_more.
Import lazyLoadModule.

Section facts.
Context {W : Type}.
Variable call : value → args → kwargs → M (store W) value.
Variable base_has : string → bool.

(** The public names: [__all__] lists the names of the module's dictionary
    and of its class's dictionary that do not start with an underscore, and
    only those; so a registered attribute is listed before it is
    computed. *)
Theorem all_lists_public_names x (st : store W) :
  x ∈ __all__ st ↔
  (is_Some (mod_dict st !! x) ∨ is_Some (cls_dict st !! x)) ∧
  startswith_underscore x = false.
Proof.
  unfold __all__. rewrite list_elem_of_filter, elem_of_app.
  rewrite !list_elem_of_fmap. split.
  - intros [Hpub Hin]. split; [|by destruct (startswith_underscore x)].
    destruct Hin as [([k v] & -> & Hin) | ([k v] & -> & Hin)];
      apply elem_of_map_to_list in Hin; simpl; eauto.
  - intros [Hin Hpub]. split; [by rewrite Hpub|].
    destruct Hin as [[v Hv] | [v Hv]]; [left | right];
      exists (x, v); (split; [done|]); by apply elem_of_map_to_list.
Qed.




End facts.


Definition mod_m : store unit := lazyLoadModule "m" {[ "foo" := VInt 1 ]} tt.

Definition mod_lazy : store unit :=
  set_cls_dict <["bar" := LazyLoader "bar" (VFun 1%positive) [] []]> mod_m.

Lemma all_lists_public_names_witness :
  "bar" ∈ __all__ mod_lazy ∧ "foo" ∈ __all__ mod_lazy ∧
  "_addattr" ∉ __all__ mod_lazy.
Proof.
  split_and!.
  - apply (proj2 (all_lists_public_names "bar" mod_lazy)).
    split; [right; vm_compute; eauto | reflexivity].
  - apply (proj2 (all_lists_public_names "foo" mod_lazy)).
    split; [left; vm_compute; eauto | reflexivity].
  - intros H. apply (proj1 (all_lists_public_names "_addattr" mod_lazy))
      in H as [_ H]. discriminate H.
Defined.



End lazyLoadModule_more.

(** ** [LazyDocString] *)

Module LazyDocString_more.
Import LazyDocString.

Section facts.
Context {W : Type}.
Variable call : value → args → kwargs → M (store W) value.
Variable class_name : arg → string.






(** The shapes of the argument list: two elements give no arguments; a
    third element is the positional arguments; a fourth element is the
    keyword arguments only when the list has exactly four elements: in a
    longer list it is ignored. *)
Theorem LazyDocString_init_shapes obj g dob (st : store W) :
  objs st !! obj = Some dob →
  doc_writable dob = true →
  let st1 := Store (<[obj := Dobj (VStr "LazyDocString placeholder") true]>
                      (objs st)) (world st) in
  __init__ class_name [AVal obj; AVal g] st
    = (Ok (Self (AVal obj) (AVal g) (ATuple []) (ADict [])), st1) ∧
  (∀ a, __init__ class_name [AVal obj; AVal g; a] st
        = (Ok (Self (AVal obj) (AVal g) a (ADict [])), st1)) ∧
  (∀ a k, __init__ class_name [AVal obj; AVal g; a; k] st
          = (Ok (Self (AVal obj) (AVal g) a k), st1)) ∧
  (∀ a k x rest,
     __init__ class_name (AVal obj :: AVal g :: a :: k :: x :: rest) st
       = (Ok (Self (AVal obj) (AVal g) a (ADict [])), st1)).
Proof.
  intros Ho Hw st1. split_and!; intros;
    by rewrite (LazyDocString_facts.__init___stores class_name obj g _ dob st
                  Ho Hw).
Qed.

(** The docstring is not cached by the lazy docstring: every string
    conversion calls the getter again and assigns what it returns. *)
Theorem LazyDocString_str_calls_each_time obj g a k d1 d2 dob1 dob2
    (st st1 st2 : store W) log :
  let s := Self (AVal obj) (AVal g) (ATuple a) (ADict k) in
  let st1' := Store (<[obj := Dobj d1 true]> (objs st1)) (world st1) in
  let st2' := Store (<[obj := Dobj d2 true]> (objs st2)) (world st2) in
  call g a k st = (Ok d1, st1) →
  objs st1 !! obj = Some dob1 → doc_writable dob1 = true →
  call g a k st1' = (Ok d2, st2) →
  objs st2 !! obj = Some dob2 → doc_writable dob2 = true →
  (__str__ call s;; __str__ call s) (st, log)
    = (Ok d2, (st2', log ++ [Called g a k; Called g a k])).
Proof.
  intros s st1' st2' Hc1 Ho1 Hw1 Hc2 Ho2 Hw2. subst s st1' st2'.
  unfold mbind at 1, M_bind, Py.bind.
  rewrite (LazyDocString_facts.__str___calls call obj g a k d1 dob1 st st1 log
             Hc1 Ho1 Hw1).
  unfold LazyDocString_facts.with_doc.
  rewrite (LazyDocString_facts.__str___calls call obj g a k d2 dob2 _ st2
             (log ++ [Called g a k]) Hc2 Ho2 Hw2).
  unfold LazyDocString_facts.with_doc.
  by rewrite <- app_assoc.
Qed.
End facts.

(** A getter that counts its calls in the world and returns the count. *)
Definition counting_getter (f : value) (a : args) (k : kwargs)
    : M (store Z) value :=
  λ st, (Ok (VInt (world st)), Store (objs st) (world st + 1)%Z).

Definition st_f : store Z := Store {[ VFun 7%positive := Dobj VNone true ]} 0%Z.


Lemma LazyDocString_init_shapes_witness :
  let st1 := Store (<[VFun 7%positive
                      := Dobj (VStr "LazyDocString placeholder") true]>
                      (objs st_f)) 0%Z in
  __init__ LazyDocString_facts.type_name
      [AVal (VFun 7%positive); AVal (VFun 8%positive); ATuple [VInt 1];
       ADict [("a", VInt 2)]; AVal VNone] st_f
    = (Ok (Self (AVal (VFun 7%positive)) (AVal (VFun 8%positive))
             (ATuple [VInt 1]) (ADict [])), st1).
Proof.
  intros st1.
  apply (proj2 (proj2 (proj2 (LazyDocString_init_shapes
           LazyDocString_facts.type_name (VFun 7%positive) (VFun 8%positive)
           (Dobj VNone true) st_f ltac:(vm_compute; reflexivity) eq_refl)))).
Defined.

Lemma LazyDocString_str_calls_each_time_witness :
  let s := Self (AVal (VFun 7%positive)) (AVal (VFun 8%positive))
                (ATuple []) (ADict []) in
  let st1 := Store (objs st_f) 1%Z in
  let st2 := Store (<[VFun 7%positive := Dobj (VInt 0) true]> (objs st1)) 2%Z in
  (__str__ counting_getter s;; __str__ counting_getter s) (st_f, [])
    = (Ok (VInt 1),
       (Store (<[VFun 7%positive := Dobj (VInt 1) true]> (objs st2)) (world st2),
        [] ++ [Called (VFun 8%positive) [] []; Called (VFun 8%positive) [] []])).
Proof.
  intros s st1 st2.
  apply (LazyDocString_str_calls_each_time counting_getter (VFun 7%positive)
           (VFun 8%positive) [] [] (VInt 0) (VInt 1) (Dobj VNone true)
           (Dobj (VInt 0) true) st_f st1 st2 []);
    try reflexivity; vm_compute; reflexivity.
Defined.
End LazyDocString_more.

(** ** [ModuleInterceptor] *)

Module ModuleInterceptor_more.
Import ModuleInterceptor.

Section facts.
Context {W : Type}.
Variable call : value → args → kwargs → M (store W) value.

(** A callback that installs the missing attribute on the module: the
    lookup that triggered it still returns [None], not the new attribute;
    the next lookup returns the attribute and calls nothing. *)
Theorem callback_installs_attribute s attr r v (st st' : store W) log :
  module_dict st !! attr = None →
  call (callback s) [module s; VStr attr] [] st = (Ok r, st') →
  module_dict st' !! attr = Some v →
  let log' := log ++ [Called (callback s) [module s; VStr attr] []] in
  __getattr__ call s attr (st, log) = (Ok VNone, (st', log')) ∧
  __getattr__ call s attr (st', log') = (Ok v, (st', log')).
Proof.
  intros Hm Hc Hv log'. split.
  - by apply (ModuleInterceptor_facts.getattr_callback_returns call s attr r).
  - by apply ModuleInterceptor_facts.getattr_found.
Qed.
End facts.

(** A callback that sets the attribute to 1. *)
Definition installing_cb (f : value) (a : args) (k : kwargs)
    : M (store unit) value :=
  match a with
  | [_; VStr attr] =>
      modify (λ st, Store (<[attr := VInt 1]> (module_dict st)) (world st));;
      mret (VStr "ignored")
  | _ => raise (TypeError "callback takes two arguments")
  end.

Lemma callback_installs_attribute_witness :
  let st := ModuleInterceptor_facts.os_module in
  let st' := Store (<["late" := VInt 1]> (module_dict st)) tt in
  let log' := [Called (VFun 1%positive) [VRef 1%positive; VStr "late"] []] in
  __getattr__ installing_cb ModuleInterceptor_facts.interceptor "late" (st, [])
    = (Ok VNone, (st', log')) ∧
  __getattr__ installing_cb ModuleInterceptor_facts.interceptor "late"
      (st', log')
    = (Ok (VInt 1), (st', log')).
Proof.
  intros st st' log'.
  apply (callback_installs_attribute installing_cb
           ModuleInterceptor_facts.interceptor "late" (VStr "ignored")
           (VInt 1) st st' []);
    vm_compute; reflexivity.
Defined.
End ModuleInterceptor_more.

